(** * GasesIdealesDefensa: the ideal-gas balloon engine

    A shallow embedding of [js/state.js], [js/physics.js] and of the parts
    of [main.js] that write the simulation state: the fill
    ([recalculateMoles]), the slider and button handlers, the educational
    ramp and the frame function [animate].

    The one mutable [SimulationState] object is passed explicitly: every
    function takes the state and returns the state it leaves.

    JavaScript numbers are modelled as the real numbers extended with the
    three IEEE special values [+Infinity], [-Infinity] and [NaN], with the
    arithmetic of ECMAScript on the special values and exact arithmetic on
    the finite ones: rounding is not modelled, and the two zeros are
    identified (a division by zero sees [+0]). The results below are
    therefore results about the formulas of the program, up to rounding.

    Contents: the numbers; the state; [physics.js]; [main.js]; the
    statements of the specification and the concrete states used below;
    then the lemmas and theorems, by subject. *)

From Stdlib Require Import Reals Lra Lia List Bool ZArith.
Import ListNotations.
Open Scope R_scope.

(** ** JavaScript numbers *)

Module JSNum.

Inductive num : Type :=
| Num (x : R)
| PosInf
| NegInf
| NaN.

Definition Rcmp (x y : R) : comparison :=
  match total_order_T x y with
  | inleft (left _) => Lt
  | inleft (right _) => Eq
  | inright _ => Gt
  end.

Definition Rsgn (x : R) : comparison := Rcmp x 0.

(** Sign of a number that is not [NaN]: [Lt] negative, [Eq] zero, [Gt] positive. *)
Definition sgn (a : num) : option comparison :=
  match a with
  | Num x => Some (Rsgn x)
  | PosInf => Some Gt
  | NegInf => Some Lt
  | NaN => None
  end.

Definition inf_of (c : comparison) : num :=
  match c with
  | Gt => PosInf
  | Lt => NegInf
  | Eq => NaN
  end.

Definition cmul (c d : comparison) : comparison :=
  match c, d with
  | Eq, _ | _, Eq => Eq
  | Gt, Gt | Lt, Lt => Gt
  | _, _ => Lt
  end.

Definition neg (a : num) : num :=
  match a with
  | Num x => Num (- x)
  | PosInf => NegInf
  | NegInf => PosInf
  | NaN => NaN
  end.

Definition add (a b : num) : num :=
  match a, b with
  | NaN, _ | _, NaN => NaN
  | Num x, Num y => Num (x + y)
  | PosInf, NegInf | NegInf, PosInf => NaN
  | PosInf, _ | _, PosInf => PosInf
  | NegInf, _ | _, NegInf => NegInf
  end.

Definition sub (a b : num) : num := add a (neg b).

Definition mul (a b : num) : num :=
  match a, b with
  | Num x, Num y => Num (x * y)
  | _, _ =>
      match sgn a, sgn b with
      | Some c, Some d => inf_of (cmul c d)
      | _, _ => NaN
      end
  end.

Definition div (a b : num) : num :=
  match a, b with
  | NaN, _ | _, NaN => NaN
  | Num x, Num y =>
      match Rsgn y with
      | Eq => inf_of (Rsgn x)
      | _ => Num (x / y)
      end
  | Num _, _ => Num 0
  | _, Num y =>
      match sgn a, Rsgn y with
      | Some c, Lt => inf_of (cmul c Lt)
      | Some c, _ => inf_of c
      | None, _ => NaN
      end
  | _, _ => NaN
  end.

(** Ordering; [None] when an operand is [NaN], and then every comparison
    of JavaScript is false. *)
Definition cmp (a b : num) : option comparison :=
  match a, b with
  | NaN, _ | _, NaN => None
  | Num x, Num y => Some (Rcmp x y)
  | PosInf, PosInf | NegInf, NegInf => Some Eq
  | PosInf, _ | _, NegInf => Some Gt
  | NegInf, _ | _, PosInf => Some Lt
  end.

Definition lt (a b : num) : bool :=
  match cmp a b with Some Lt => true | _ => false end.
Definition le (a b : num) : bool :=
  match cmp a b with Some Lt | Some Eq => true | _ => false end.
Definition gt (a b : num) : bool :=
  match cmp a b with Some Gt => true | _ => false end.
Definition ge (a b : num) : bool :=
  match cmp a b with Some Gt | Some Eq => true | _ => false end.

(** [Math.min] of two arguments. *)
Definition min (a b : num) : num :=
  match cmp a b with
  | None => NaN
  | Some Gt => b
  | Some _ => a
  end.

(** [Math.sign]. *)
Definition sign (a : num) : num :=
  match sgn a with
  | None => NaN
  | Some Lt => Num (-1)
  | Some Eq => Num 0
  | Some Gt => Num 1
  end.

Definition is_integer (y : R) : bool :=
  match Rcmp y (IZR (Int_part y)) with Eq => true | _ => false end.

Definition is_odd_integer (b : num) : bool :=
  match b with
  | Num y => is_integer y && Z.odd (Int_part y)
  | _ => false
  end.

(** [Math.pow], by the case list of ECMAScript's Number::exponentiate. *)
Definition pow (a b : num) : num :=
  match b with
  | NaN => NaN
  | Num y =>
      match Rsgn y with
      | Eq => Num 1
      | sy =>
          match a with
          | NaN => NaN
          | PosInf => match sy with Gt => PosInf | _ => Num 0 end
          | NegInf =>
              match sy with
              | Gt => if is_odd_integer b then NegInf else PosInf
              | _ => Num 0
              end
          | Num x =>
              match Rsgn x with
              | Eq => match sy with Gt => Num 0 | _ => PosInf end
              | Gt => Num (Rpower x y)
              | Lt => if is_integer y then Num (powerRZ x (Int_part y)) else NaN
              end
          end
      end
  | _ =>
      match a with
      | NaN => NaN
      | PosInf => match b with PosInf => PosInf | _ => Num 0 end
      | NegInf => match b with PosInf => PosInf | _ => Num 0 end
      | Num x =>
          match Rsgn x with
          | Eq => match b with PosInf => Num 0 | _ => PosInf end
          | _ =>
              match Rcmp (Rabs x) 1, b with
              | Eq, _ => NaN
              | Gt, PosInf | Lt, NegInf => PosInf
              | _, _ => Num 0
              end
          end
      end
  end.

Definition finite (a : num) : Prop := exists x, a = Num x.

End JSNum.

Import JSNum.

Declare Scope js_scope.
Delimit Scope js_scope with js.
Bind Scope js_scope with num.
Infix "+" := add : js_scope.
Infix "-" := sub : js_scope.
Infix "*" := mul : js_scope.
Infix "/" := div : js_scope.
Notation "- a" := (neg a) : js_scope.
Infix "<?" := lt (at level 70) : js_scope.
Infix "<=?" := le (at level 70) : js_scope.
Infix ">?" := gt (at level 70) : js_scope.
Infix ">=?" := ge (at level 70) : js_scope.

(** ** state.js *)

Inductive Mode : Type := IDLE | BOYLE | CHARLES | GAY_LUSSAC | MISSION.
Inductive GasType : Type := HE | NE | AR.
(** [animation.parameter]: the empty string, ['pressure'] or ['temperature']. *)
Inductive AnimParam : Type := NoParam | ParamPressure | ParamTemperature.

Definition Mode_eqb (a b : Mode) : bool :=
  match a, b with
  | IDLE, IDLE | BOYLE, BOYLE | CHARLES, CHARLES
  | GAY_LUSSAC, GAY_LUSSAC | MISSION, MISSION => true
  | _, _ => false
  end.

Record GasProperty : Type := { molarMass : num }.

Definition GAS_PROPERTIES (g : GasType) : GasProperty :=
  match g with
  | HE => {| molarMass := Num 0.0040026 |}
  | NE => {| molarMass := Num 0.0201797 |}
  | AR => {| molarMass := Num 0.039948 |}
  end.

Record Env : Type := mkEnv {
  altitude : num;
  pressure : num;
  temperature : num;
  gravity : num
}.

Record Balloon : Type := mkBalloon {
  gasType : GasType;
  moles : num;
  volume : num;
  radius : num;
  maxRadius : num;
  positionY : num;
  velocity : num;
  massPayload : num;
  massBalloon : num;
  constantVolume : num
}.

Record Animation : Type := mkAnimation {
  active : bool;
  startValue : num;
  targetValue : num;
  currentValue : num;
  duration : num;
  elapsed : num;
  parameter : AnimParam;
  direction : num
}.

Record SimulationState : Type := mkState {
  mode : Mode;
  isRunning : bool;
  env : Env;
  balloon : Balloon;
  animation : Animation
}.

Definition initialState : SimulationState :=
  {| mode := IDLE;
     isRunning := false;
     env := {| altitude := Num 0; pressure := Num 101325;
               temperature := Num 293; gravity := Num 9.81 |};
     balloon := {| gasType := HE; moles := Num 0; volume := Num 0;
                   radius := Num 1.0; maxRadius := Num 5.0;
                   positionY := Num 0; velocity := Num 0;
                   massPayload := Num 0.5; massBalloon := Num 0.2;
                   constantVolume := Num 0 |};
     animation := {| active := false; startValue := Num 0;
                     targetValue := Num 0; currentValue := Num 0;
                     duration := Num 10; elapsed := Num 0;
                     parameter := NoParam; direction := Num 1 |} |}.

(** Assignments to the fields of the one shared state object. *)
Module Assign.

Definition set_env (f : Env -> Env) (s : SimulationState) : SimulationState :=
  mkState (mode s) (isRunning s) (f (env s)) (balloon s) (animation s).
Definition set_balloon (f : Balloon -> Balloon) (s : SimulationState) : SimulationState :=
  mkState (mode s) (isRunning s) (env s) (f (balloon s)) (animation s).
Definition set_animation (f : Animation -> Animation) (s : SimulationState) : SimulationState :=
  mkState (mode s) (isRunning s) (env s) (balloon s) (f (animation s)).

Definition mode_ (v : Mode) (s : SimulationState) : SimulationState :=
  mkState v (isRunning s) (env s) (balloon s) (animation s).
Definition isRunning_ (v : bool) (s : SimulationState) : SimulationState :=
  mkState (mode s) v (env s) (balloon s) (animation s).

Definition altitude_ (v : num) : SimulationState -> SimulationState :=
  set_env (fun e => mkEnv v (pressure e) (temperature e) (gravity e)).
Definition pressure_ (v : num) : SimulationState -> SimulationState :=
  set_env (fun e => mkEnv (altitude e) v (temperature e) (gravity e)).
Definition temperature_ (v : num) : SimulationState -> SimulationState :=
  set_env (fun e => mkEnv (altitude e) (pressure e) v (gravity e)).

Definition gasType_ (v : GasType) : SimulationState -> SimulationState :=
  set_balloon (fun b => mkBalloon v (moles b) (volume b) (radius b)
    (maxRadius b) (positionY b) (velocity b) (massPayload b) (massBalloon b)
    (constantVolume b)).
Definition moles_ (v : num) : SimulationState -> SimulationState :=
  set_balloon (fun b => mkBalloon (gasType b) v (volume b) (radius b)
    (maxRadius b) (positionY b) (velocity b) (massPayload b) (massBalloon b)
    (constantVolume b)).
Definition volume_ (v : num) : SimulationState -> SimulationState :=
  set_balloon (fun b => mkBalloon (gasType b) (moles b) v (radius b)
    (maxRadius b) (positionY b) (velocity b) (massPayload b) (massBalloon b)
    (constantVolume b)).
Definition radius_ (v : num) : SimulationState -> SimulationState :=
  set_balloon (fun b => mkBalloon (gasType b) (moles b) (volume b) v
    (maxRadius b) (positionY b) (velocity b) (massPayload b) (massBalloon b)
    (constantVolume b)).
Definition maxRadius_ (v : num) : SimulationState -> SimulationState :=
  set_balloon (fun b => mkBalloon (gasType b) (moles b) (volume b) (radius b)
    v (positionY b) (velocity b) (massPayload b) (massBalloon b)
    (constantVolume b)).
Definition positionY_ (v : num) : SimulationState -> SimulationState :=
  set_balloon (fun b => mkBalloon (gasType b) (moles b) (volume b) (radius b)
    (maxRadius b) v (velocity b) (massPayload b) (massBalloon b)
    (constantVolume b)).
Definition velocity_ (v : num) : SimulationState -> SimulationState :=
  set_balloon (fun b => mkBalloon (gasType b) (moles b) (volume b) (radius b)
    (maxRadius b) (positionY b) v (massPayload b) (massBalloon b)
    (constantVolume b)).
Definition massPayload_ (v : num) : SimulationState -> SimulationState :=
  set_balloon (fun b => mkBalloon (gasType b) (moles b) (volume b) (radius b)
    (maxRadius b) (positionY b) (velocity b) v (massBalloon b)
    (constantVolume b)).
Definition constantVolume_ (v : num) : SimulationState -> SimulationState :=
  set_balloon (fun b => mkBalloon (gasType b) (moles b) (volume b) (radius b)
    (maxRadius b) (positionY b) (velocity b) (massPayload b) (massBalloon b)
    v).

Definition active_ (v : bool) : SimulationState -> SimulationState :=
  set_animation (fun a => mkAnimation v (startValue a) (targetValue a)
    (currentValue a) (duration a) (elapsed a) (parameter a) (direction a)).
Definition startValue_ (v : num) : SimulationState -> SimulationState :=
  set_animation (fun a => mkAnimation (active a) v (targetValue a)
    (currentValue a) (duration a) (elapsed a) (parameter a) (direction a)).
Definition targetValue_ (v : num) : SimulationState -> SimulationState :=
  set_animation (fun a => mkAnimation (active a) (startValue a) v
    (currentValue a) (duration a) (elapsed a) (parameter a) (direction a)).
Definition currentValue_ (v : num) : SimulationState -> SimulationState :=
  set_animation (fun a => mkAnimation (active a) (startValue a) (targetValue a)
    v (duration a) (elapsed a) (parameter a) (direction a)).
Definition elapsed_ (v : num) : SimulationState -> SimulationState :=
  set_animation (fun a => mkAnimation (active a) (startValue a) (targetValue a)
    (currentValue a) (duration a) v (parameter a) (direction a)).
Definition parameter_ (v : AnimParam) : SimulationState -> SimulationState :=
  set_animation (fun a => mkAnimation (active a) (startValue a) (targetValue a)
    (currentValue a) (duration a) (elapsed a) v (direction a)).
Definition direction_ (v : num) : SimulationState -> SimulationState :=
  set_animation (fun a => mkAnimation (active a) (startValue a) (targetValue a)
    (currentValue a) (duration a) (elapsed a) (parameter a) v).

End Assign.

Import Assign.

(** Statements in source order: [s ;> f ;> g] runs [f], then [g]. *)
Notation "s ;> f" := (f s) (at level 61, left associativity, only parsing).

Definition resetMissionState (s : SimulationState) : SimulationState :=
  s ;> altitude_ (Num 0)
    ;> pressure_ (Num 101325)
    ;> temperature_ (Num 293)
    ;> positionY_ (Num 0)
    ;> velocity_ (Num 0)
    ;> radius_ (Num 1.0)
    ;> isRunning_ false
    ;> active_ false.

(** ** physics.js *)

Definition R_gas : num := Num 8.314.
Definition Math_PI : num := Num PI.

Record Atmosphere : Type := { atm_pressure : num; atm_temperature : num }.

Definition getAtmosphere (h : num) : Atmosphere :=
  let T0 := Num 293 in
  let P0 := Num 101325 in
  let L := Num 0.0065 in
  let g := Num 9.81 in
  let M_air := Num 0.0289644 in
  let temperature := (T0 - (L * h))%js in
  let temperature := if (temperature <? Num 1)%js then Num 1 else temperature in
  let exponent := ((g * M_air) / (R_gas * L))%js in
  let base := (Num 1 - (L * h) / T0)%js in
  let pressure := if (base >? Num 0)%js then (P0 * pow base exponent)%js else Num 0 in
  {| atm_pressure := pressure; atm_temperature := temperature |}.

Definition calculateVolume (n T P : num) : num :=
  if (P <=? Num 0)%js then PosInf else ((n * R_gas * T) / P)%js.

Definition calculateMoles (P V T : num) : num :=
  ((P * V) / (R_gas * T))%js.

Record FrameStatus : Type := { exploded : bool }.

(** The four numbered parts of [simulationLoop]. *)

Definition environmentUpdate (deltaTime : num) (s : SimulationState) : SimulationState :=
  if Mode_eqb (mode s) MISSION && isRunning s then
    let s := s ;> altitude_ (altitude (env s) + velocity (balloon s) * deltaTime)%js in
    let s := s ;> positionY_ (altitude (env s)) in
    let envData := getAtmosphere (altitude (env s)) in
    s ;> pressure_ (atm_pressure envData)
      ;> temperature_ (atm_temperature envData)
  else s.

Definition gasLaws (s : SimulationState) : SimulationState :=
  if Mode_eqb (mode s) GAY_LUSSAC then s
  else
    let s := s ;> volume_ (calculateVolume (moles (balloon s))
                             (temperature (env s)) (pressure (env s))) in
    s ;> radius_ (pow ((Num 3 * volume (balloon s)) / (Num 4 * Math_PI))%js
                      (Num 1 / Num 3)%js).

Definition M_air : num := Num 0.0289644.
Definition Cd : num := Num 0.47.

Definition rhoAir (s : SimulationState) : num :=
  ((pressure (env s) * M_air) / (R_gas * temperature (env s)))%js.
(** Computed by the loop and not used by it. *)
Definition rhoGas (s : SimulationState) : num :=
  ((pressure (env s) * molarMass (GAS_PROPERTIES (gasType (balloon s))))
   / (R_gas * temperature (env s)))%js.
Definition liftForce (s : SimulationState) : num :=
  (rhoAir s * volume (balloon s) * gravity (env s))%js.
Definition massGas (s : SimulationState) : num :=
  (moles (balloon s) * molarMass (GAS_PROPERTIES (gasType (balloon s))))%js.
Definition totalMass (s : SimulationState) : num :=
  (massPayload (balloon s) + massBalloon (balloon s) + massGas s)%js.
Definition gravityForce (s : SimulationState) : num :=
  (totalMass s * gravity (env s))%js.
Definition dragForce (s : SimulationState) : num :=
  let Area := (Math_PI * radius (balloon s) * radius (balloon s))%js in
  (- sign (velocity (balloon s)) * Num 0.5 * rhoAir s
   * (velocity (balloon s) * velocity (balloon s)) * Cd * Area)%js.

Definition forcesAndMovement (deltaTime : num) (s : SimulationState) : SimulationState :=
  if Mode_eqb (mode s) MISSION && isRunning s then
    let netForce := (liftForce s - gravityForce s)%js in
    let totalForce := (netForce + dragForce s)%js in
    let acceleration := (totalForce / totalMass s)%js in
    let s := s ;> velocity_ (velocity (balloon s) + acceleration * deltaTime)%js in
    if (altitude (env s) <? Num 0)%js then
      s ;> altitude_ (Num 0) ;> positionY_ (Num 0) ;> velocity_ (Num 0)
    else s
  else s.

Definition limits (s : SimulationState) : FrameStatus :=
  if (radius (balloon s) >=? maxRadius (balloon s))%js
  then {| exploded := true |}
  else {| exploded := false |}.

Definition simulationLoop (deltaTime : num) (s : SimulationState)
  : SimulationState * FrameStatus :=
  let s := environmentUpdate deltaTime s in
  let s := gasLaws s in
  let s := forcesAndMovement deltaTime s in
  (s, limits s).

(** ** main.js: fill, input handlers, ramp and frame *)

(** The values [parseFloat] reads from the three sliders. *)
Record UI : Type := {
  sliderPressure : num;
  sliderTemp : num;
  sliderInitialRadius : num
}.

Definition recalculateMoles (ui : UI) (s : SimulationState) : SimulationState :=
  let initialRadius := sliderInitialRadius ui in
  let initialVolume := ((Num 4 / Num 3) * Math_PI * pow initialRadius (Num 3))%js in
  let P := sliderPressure ui in
  let T := sliderTemp ui in
  s ;> moles_ (calculateMoles P initialVolume T)
    ;> volume_ initialVolume
    ;> radius_ initialRadius.

Definition initSimulation (ui : UI) (s : SimulationState) : SimulationState :=
  recalculateMoles ui s.

(** The state written by [updateControlVisibility]. *)
Definition updateControlVisibility (s : SimulationState) : SimulationState :=
  if Mode_eqb (mode s) GAY_LUSSAC
  then s ;> constantVolume_ (volume (balloon s))
  else s.

(** ['input'] on the pressure slider. *)
Definition sliderPressureInput (value : num) (s : SimulationState) : SimulationState :=
  if Mode_eqb (mode s) IDLE || Mode_eqb (mode s) BOYLE
  then s ;> pressure_ value
  else s.

(** ['input'] on the temperature slider. *)
Definition sliderTempInput (value : num) (s : SimulationState) : SimulationState :=
  if Mode_eqb (mode s) IDLE || Mode_eqb (mode s) CHARLES
     || Mode_eqb (mode s) GAY_LUSSAC
  then s ;> temperature_ value
  else s.

(** ['input'] on the burst-radius slider. *)
Definition sliderMaxRadiusInput (value : num) (s : SimulationState) : SimulationState :=
  s ;> maxRadius_ value.

(** ['click'] on a mode button. *)
Definition modeClick (newMode : Mode) (ui : UI) (s : SimulationState) : SimulationState :=
  let s := s ;> mode_ newMode ;> isRunning_ false ;> active_ false in
  let s :=
    if Mode_eqb newMode MISSION
    then s ;> resetMissionState ;> initSimulation ui
    else s ;> altitude_ (Num 0) ;> velocity_ (Num 0) ;> positionY_ (Num 0) in
  updateControlVisibility s.

Definition PRESSURE_MIN : num := Num 10000.
Definition PRESSURE_MAX : num := Num 200000.
Definition TEMP_MIN : num := Num 100.
Definition TEMP_MAX : num := Num 500.

(** ['click'] on the start button of the educational modes;
    [increase] is [selectedDirection === 1]. *)
Definition startEdu (increase : bool) (s : SimulationState) : SimulationState :=
  let selectedDirection := if increase then Num 1 else Num (-1) in
  let ramp (p : AnimParam) (from lo hi : num) (s : SimulationState) :=
    s ;> parameter_ p
      ;> startValue_ from
      ;> direction_ selectedDirection
      ;> targetValue_ (if increase then hi else lo)
      ;> currentValue_ from
      ;> elapsed_ (Num 0)
      ;> active_ true in
  match mode s with
  | BOYLE => ramp ParamPressure (pressure (env s)) PRESSURE_MIN PRESSURE_MAX s
  | CHARLES => ramp ParamTemperature (temperature (env s)) TEMP_MIN TEMP_MAX s
  | GAY_LUSSAC => ramp ParamTemperature (temperature (env s)) TEMP_MIN TEMP_MAX s
  | _ => s
  end.

Definition stopEdu (s : SimulationState) : SimulationState :=
  s ;> active_ false ;> elapsed_ (Num 0).

Definition launch (s : SimulationState) : SimulationState :=
  s ;> isRunning_ true.

(** The pressure a Gay-Lussac ramp writes after it has set the temperature. *)
Definition gayLussacPressure (s : SimulationState) : SimulationState :=
  if Mode_eqb (mode s) GAY_LUSSAC
  then s ;> pressure_ ((moles (balloon s) * Num 8.314 * temperature (env s))
                       / constantVolume (balloon s))%js
  else s.

Definition writeParameter (value : num) (s : SimulationState) : SimulationState :=
  match parameter (animation s) with
  | ParamPressure => s ;> pressure_ value
  | ParamTemperature => s ;> temperature_ value ;> gayLussacPressure
  | NoParam => s
  end.

(** The block of [animate] guarded by [s.animation.active]. *)
Definition rampUpdate (deltaTime : num) (s : SimulationState) : SimulationState :=
  if active (animation s) then
    let s := s ;> elapsed_ (elapsed (animation s) + deltaTime)%js in
    let progress := min (elapsed (animation s) / duration (animation s))%js (Num 1.0) in
    let value := (startValue (animation s)
                  + (targetValue (animation s) - startValue (animation s)) * progress)%js in
    let s := writeParameter value s in
    if (progress >=? Num 1.0)%js then
      s ;> writeParameter (targetValue (animation s)) ;> active_ false
    else s
  else s.

(** [deltaTime] as [animate] computes it from the two clock readings. *)
Definition frameDeltaTime (currentTime lastTime : num) : num :=
  min ((currentTime - lastTime) / Num 1000)%js (Num 0.1).

(** What [animate] does to the state when the step reports a burst;
    the reset it schedules is [explosionReset]. *)
Definition onExploded (s : SimulationState) : SimulationState :=
  s ;> isRunning_ false ;> active_ false.

Definition explosionReset (ui : UI) (s : SimulationState) : SimulationState :=
  if Mode_eqb (mode s) MISSION
  then s ;> resetMissionState ;> initSimulation ui
  else s ;> altitude_ (Num 0) ;> velocity_ (Num 0) ;> positionY_ (Num 0)
         ;> radius_ (Num 1.0) ;> initSimulation ui.

(** One frame with the time step already computed: ramp, physics, burst
    handling. *)
Definition frame (deltaTime : num) (s : SimulationState)
  : SimulationState * FrameStatus :=
  let s := rampUpdate deltaTime s in
  let (s, result) := simulationLoop deltaTime s in
  if exploded result then (onExploded s, result) else (s, result).

(** [animate]: the new [lastTime], the state and the step's result. *)
Definition animate (currentTime lastTime : num) (s : SimulationState)
  : num * SimulationState * FrameStatus :=
  let deltaTime := frameDeltaTime currentTime lastTime in
  let (s, result) := frame deltaTime s in
  (currentTime, s, result).

(** A run of bare physics steps. *)
Fixpoint steps (dts : list num) (s : SimulationState)
  : SimulationState * list bool :=
  match dts with
  | [] => (s, [])
  | dt :: rest =>
      let (s1, r) := simulationLoop dt s in
      let (s2, rs) := steps rest s1 in
      (s2, exploded r :: rs)
  end.


(** What reaches the state of an educational mode between two bursts: a
    frame of [animate], a move of the temperature or pressure slider, the
    start and stop buttons of the ramp. *)
Inductive Input : Type :=
| Tick (deltaTime : num)
| TemperatureSlider (value : num)
| PressureSlider (value : num)
| StartEdu (increase : bool)
| StopEdu.

Definition handle (i : Input) (s : SimulationState)
  : SimulationState * list bool :=
  match i with
  | Tick deltaTime =>
      let (s', result) := frame deltaTime s in (s', [exploded result])
  | TemperatureSlider value => (sliderTempInput value s, [])
  | PressureSlider value => (sliderPressureInput value s, [])
  | StartEdu increase => (startEdu increase s, [])
  | StopEdu => (stopEdu s, [])
  end.

(** The state after a list of inputs and the burst reports of its frames. *)
Fixpoint run (inputs : list Input) (s : SimulationState)
  : SimulationState * list bool :=
  match inputs with
  | [] => (s, [])
  | i :: rest =>
      let (s1, r) := handle i s in
      let (s2, rs) := run rest s1 in
      (s2, r ++ rs)
  end.

(** ** The statements of the specification, as definitions *)

Module Spec.

(** Temperature of the atmosphere model: [293 - 0.0065 h], not below 1. *)
Definition temperature_at (h : R) : R := Rmax (293 - 0.0065 * h) 1.

Definition base_at (h : R) : R := 1 - 0.0065 * h / 293.

Definition exponent : R := (9.81 * 0.0289644) / (8.314 * 0.0065).

(** Pressure of the atmosphere model: the barometric formula while the base
    is positive, vacuum otherwise. *)
Definition pressure_at (h : R) : R :=
  if Rlt_dec 0 (base_at h) then 101325 * Rpower (base_at h) exponent else 0.

(** [x] is [y] up to [tol]. *)
Definition approx (tol x y : R) : Prop := Rabs (x - y) <= tol.

(** A step crosses the burst threshold when the radius was below
    [maxRadius] before it and is not below it after it. *)
Definition crossing (before after : SimulationState) : bool :=
  negb (radius (balloon before) >=? maxRadius (balloon before))%js
  && (radius (balloon after) >=? maxRadius (balloon after))%js.

(** Number of crossings in a run of steps. *)
Fixpoint crossings (dts : list num) (s : SimulationState) : nat :=
  match dts with
  | [] => 0%nat
  | dt :: rest =>
      let s' := fst (simulationLoop dt s) in
      ((if crossing s s' then 1 else 0) + crossings rest s')%nat
  end.

(** Number of burst reports in a list of step results. *)
Definition reports (rs : list bool) : nat := length (filter (fun b => b) rs).

(** "Exactly once per crossing", for one run of steps. *)
Definition once_per_crossing (dts : list num) (s : SimulationState) : Prop :=
  reports (snd (steps dts s)) = crossings dts s.

(** "The step caps the incoming dt", for one step. *)
Definition step_caps_dt (dt : num) (s : SimulationState) : Prop :=
  simulationLoop dt s = simulationLoop (min dt (Num 0.1)) s.

End Spec.

(** ** Concrete states *)

Module Scenario.

(** The sliders at the standard filling conditions. *)
Definition standard_ui : UI :=
  {| sliderPressure := Num 101325; sliderTemp := Num 293;
     sliderInitialRadius := Num 1.0 |}.

(** A mission just launched, climbing at 1 m/s. *)
Definition climbing : SimulationState :=
  initialState ;> mode_ MISSION ;> isRunning_ true ;> velocity_ (Num 1).

(** Free mode at the standard conditions with 30000 mol of gas: radius 1 in
    the state, a computed radius beyond the burst limit of 5. *)
Definition overfilled : SimulationState :=
  initialState ;> moles_ (Num 30000).

(** The application as it starts: free mode, filled at the sliders. *)
Definition loaded : SimulationState :=
  initSimulation standard_ui initialState ;> updateControlVisibility.

(** The Gay-Lussac button clicked on the application as it starts. *)
Definition rigid : SimulationState :=
  modeClick GAY_LUSSAC standard_ui loaded.

End Scenario.

(** ** main.js: the remaining handlers *)

Module JSMath.

(** [Math.max] of two arguments. *)
Definition max (a b : num) : num :=
  match cmp a b with
  | None => NaN
  | Some Lt => b
  | Some _ => a
  end.

(** [isNaN] on a number. *)
Definition isNaN (a : num) : bool :=
  match a with
  | NaN => true
  | _ => false
  end.

End JSMath.

(** ['input'] on the pressure text box; [lo] and [hi] are the [min] and
    [max] attributes of the slider as [parseFloat] reads them, [value] is
    the parsed text. *)
Definition inputPressureInput (lo hi value : num) (s : SimulationState)
  : SimulationState :=
  if Mode_eqb (mode s) IDLE || Mode_eqb (mode s) BOYLE then
    if JSMath.isNaN value then s
    else
      let value := JSMath.max lo (min hi value) in
      s ;> pressure_ value
  else s.

(** ['blur'] on the pressure text box. *)
Definition inputPressureBlur (lo hi value : num) (s : SimulationState)
  : SimulationState :=
  let value :=
    if JSMath.isNaN value then pressure (env s)
    else JSMath.max lo (min hi value) in
  s ;> pressure_ value.

(** ['input'] on the temperature text box. *)
Definition inputTempInput (lo hi value : num) (s : SimulationState)
  : SimulationState :=
  if Mode_eqb (mode s) IDLE || Mode_eqb (mode s) CHARLES
     || Mode_eqb (mode s) GAY_LUSSAC then
    if JSMath.isNaN value then s
    else
      let value := JSMath.max lo (min hi value) in
      s ;> temperature_ value
  else s.

(** ['blur'] on the temperature text box. *)
Definition inputTempBlur (lo hi value : num) (s : SimulationState)
  : SimulationState :=
  let value :=
    if JSMath.isNaN value then temperature (env s)
    else JSMath.max lo (min hi value) in
  s ;> temperature_ value.

(** ['input'] and ['blur'] on the burst-radius text box. *)
Definition inputMaxRadiusInput (lo hi value : num) (s : SimulationState)
  : SimulationState :=
  if JSMath.isNaN value then s
  else
    let value := JSMath.max lo (min hi value) in
    s ;> maxRadius_ value.

Definition inputMaxRadiusBlur (lo hi value : num) (s : SimulationState)
  : SimulationState :=
  let value :=
    if JSMath.isNaN value then maxRadius (balloon s)
    else JSMath.max lo (min hi value) in
  s ;> maxRadius_ value.

(** The payload-mass slider and text box. *)
Definition sliderPayloadMassInput (value : num) (s : SimulationState)
  : SimulationState :=
  s ;> massPayload_ value.

Definition inputPayloadMassInput (lo hi value : num) (s : SimulationState)
  : SimulationState :=
  if JSMath.isNaN value then s
  else
    let value := JSMath.max lo (min hi value) in
    s ;> massPayload_ value.

Definition inputPayloadMassBlur (lo hi value : num) (s : SimulationState)
  : SimulationState :=
  let value :=
    if JSMath.isNaN value then massPayload (balloon s)
    else JSMath.max lo (min hi value) in
  s ;> massPayload_ value.

(** ['change'] on the gas selector. *)
Definition gasSelectChange (value : GasType) (s : SimulationState)
  : SimulationState :=
  s ;> gasType_ value.

(** ['click'] on the reset button of the mission. *)
Definition resetClick (ui : UI) (s : SimulationState) : SimulationState :=
  s ;> resetMissionState ;> initSimulation ui.

(** The danger meter of [updateUI]: the fraction of the bar that is
    filled. *)
Definition tension (s : SimulationState) : num :=
  min (radius (balloon s) / maxRadius (balloon s))%js (Num 1.0).

(** Everything that writes the state: the frame, the controls, and the
    reset that a burst schedules. Where a handler reads the sliders, the
    event carries what it reads. *)
Inductive Event : Type :=
| Frame (deltaTime : num)
| SliderPressure (value : num)
| SliderTemp (value : num)
| SliderMaxRadius (value : num)
| SliderPayloadMass (value : num)
| SliderInitialRadius (ui : UI)
| TypedPressure (lo hi value : num)
| BlurPressure (lo hi value : num)
| TypedTemp (lo hi value : num)
| BlurTemp (lo hi value : num)
| TypedMaxRadius (lo hi value : num)
| BlurMaxRadius (lo hi value : num)
| TypedPayloadMass (lo hi value : num)
| BlurPayloadMass (lo hi value : num)
| GasSelect (value : GasType)
| ModeClick (newMode : Mode) (ui : UI)
| StartClick (increase : bool)
| StopClick
| LaunchClick
| ResetClick (ui : UI)
| BurstTimer (ui : UI).

Definition dispatch (e : Event) (s : SimulationState) : SimulationState :=
  match e with
  | Frame deltaTime => fst (frame deltaTime s)
  | SliderPressure value => sliderPressureInput value s
  | SliderTemp value => sliderTempInput value s
  | SliderMaxRadius value => sliderMaxRadiusInput value s
  | SliderPayloadMass value => sliderPayloadMassInput value s
  | SliderInitialRadius ui => recalculateMoles ui s
  | TypedPressure lo hi value => inputPressureInput lo hi value s
  | BlurPressure lo hi value => inputPressureBlur lo hi value s
  | TypedTemp lo hi value => inputTempInput lo hi value s
  | BlurTemp lo hi value => inputTempBlur lo hi value s
  | TypedMaxRadius lo hi value => inputMaxRadiusInput lo hi value s
  | BlurMaxRadius lo hi value => inputMaxRadiusBlur lo hi value s
  | TypedPayloadMass lo hi value => inputPayloadMassInput lo hi value s
  | BlurPayloadMass lo hi value => inputPayloadMassBlur lo hi value s
  | GasSelect value => gasSelectChange value s
  | ModeClick newMode ui => modeClick newMode ui s
  | StartClick increase => startEdu increase s
  | StopClick => stopEdu s
  | LaunchClick => launch s
  | ResetClick ui => resetClick ui s
  | BurstTimer ui => explosionReset ui s
  end.

(** The state after a list of events, first event first. *)
Definition dispatchAll (events : list Event) (s : SimulationState)
  : SimulationState :=
  fold_left (fun s e => dispatch e s) events s.


(** The fields no code writes. *)
Definition constants (s : SimulationState) : num * num * num :=
  (gravity (env s), massBalloon (balloon s), duration (animation s)).

(** The volume and the radius of the state are those part 2 of the loop
    computes from its moles, temperature and pressure. *)
Definition resolved (s : SimulationState) : Prop :=
  Mode_eqb (mode s) GAY_LUSSAC = false ->
  volume (balloon s)
  = calculateVolume (moles (balloon s)) (temperature (env s)) (pressure (env s))
  /\ radius (balloon s)
     = pow ((Num 3 * volume (balloon s)) / (Num 4 * Math_PI))%js
           (Num 1 / Num 3)%js.

(** More concrete states. *)
Module Scenario2.

(** Boyle mode entered from the application as it starts, the ramp started
    upwards. *)
Definition boyle_ramp : SimulationState :=
  Scenario.loaded ;> modeClick BOYLE Scenario.standard_ui ;> startEdu true.

(** Gay-Lussac mode with the ramp started upwards. *)
Definition rigid_ramp : SimulationState :=
  Scenario.rigid ;> startEdu true.

(** A mission flying above the ceiling of the atmosphere model. *)
Definition above_ceiling : SimulationState :=
  initialState ;> mode_ MISSION ;> isRunning_ true ;> moles_ (Num 174)
               ;> altitude_ (Num 50000) ;> positionY_ (Num 50000).

End Scenario2.

(** ** Proof automation *)

(** Destructs the tests of the embedded code, innermost first. *)
Ltac split_tests :=
  repeat match goal with
  | |- context [if ?c then _ else _] =>
      lazymatch c with
      | context [if _ then _ else _] => fail
      | _ => destruct c eqn:?
      end
  | |- context [match parameter ?a with _ => _ end] =>
      destruct (parameter a) eqn:?
  | |- context [match mode ?s with _ => _ end] =>
      destruct (mode s) eqn:?
  end.
(** ** Arithmetic of finite numbers *)

Section FiniteArithmetic.

Lemma Rcmp_spec (x y : R) :
  match Rcmp x y with
  | Lt => x < y
  | Eq => x = y
  | Gt => y < x
  end.
Proof.
  unfold Rcmp. destruct (total_order_T x y) as [[H | H] | H]; assumption.
Qed.

Lemma Rcmp_Lt (x y : R) : x < y -> Rcmp x y = Lt.
Proof.
  intros H. pose proof (Rcmp_spec x y) as S.
  destruct (Rcmp x y); [lra | reflexivity | lra].
Qed.

Lemma Rcmp_Gt (x y : R) : y < x -> Rcmp x y = Gt.
Proof.
  intros H. pose proof (Rcmp_spec x y) as S.
  destruct (Rcmp x y); [lra | lra | reflexivity].
Qed.

Lemma Rcmp_Eq (x y : R) : x = y -> Rcmp x y = Eq.
Proof.
  intros H. pose proof (Rcmp_spec x y) as S.
  destruct (Rcmp x y); [reflexivity | lra | lra].
Qed.

Lemma div_Num (x y : R) : y <> 0 -> (Num x / Num y)%js = Num (x / y).
Proof.
  intros H. unfold div, Rsgn. pose proof (Rcmp_spec y 0) as S.
  destruct (Rcmp y 0); [contradiction | reflexivity | reflexivity].
Qed.

Lemma lt_Num (x y : R) : (Num x <? Num y)%js = true <-> x < y.
Proof.
  unfold lt; simpl. pose proof (Rcmp_spec x y) as S.
  destruct (Rcmp x y); split; intros H; try reflexivity; try discriminate; lra.
Qed.

Lemma lt_Num_false (x y : R) : (Num x <? Num y)%js = false <-> y <= x.
Proof.
  unfold lt; simpl. pose proof (Rcmp_spec x y) as S.
  destruct (Rcmp x y); split; intros H; try reflexivity; try discriminate; lra.
Qed.

Lemma le_Num (x y : R) : (Num x <=? Num y)%js = true <-> x <= y.
Proof.
  unfold le; simpl. pose proof (Rcmp_spec x y) as S.
  destruct (Rcmp x y); split; intros H; try reflexivity; try discriminate; lra.
Qed.

Lemma le_Num_false (x y : R) : (Num x <=? Num y)%js = false <-> y < x.
Proof.
  unfold le; simpl. pose proof (Rcmp_spec x y) as S.
  destruct (Rcmp x y); split; intros H; try reflexivity; try discriminate; lra.
Qed.

Lemma gt_Num (x y : R) : (Num x >? Num y)%js = true <-> y < x.
Proof.
  unfold gt; simpl. pose proof (Rcmp_spec x y) as S.
  destruct (Rcmp x y); split; intros H; try reflexivity; try discriminate; lra.
Qed.

Lemma gt_Num_false (x y : R) : (Num x >? Num y)%js = false <-> x <= y.
Proof.
  unfold gt; simpl. pose proof (Rcmp_spec x y) as S.
  destruct (Rcmp x y); split; intros H; try reflexivity; try discriminate; lra.
Qed.

Lemma ge_Num (x y : R) : (Num x >=? Num y)%js = true <-> y <= x.
Proof.
  unfold ge; simpl. pose proof (Rcmp_spec x y) as S.
  destruct (Rcmp x y); split; intros H; try reflexivity; try discriminate; lra.
Qed.

Lemma ge_Num_false (x y : R) : (Num x >=? Num y)%js = false <-> x < y.
Proof.
  unfold ge; simpl. pose proof (Rcmp_spec x y) as S.
  destruct (Rcmp x y); split; intros H; try reflexivity; try discriminate; lra.
Qed.

Lemma min_Num (x y : R) : min (Num x) (Num y) = Num (Rmin x y).
Proof.
  unfold min; simpl. pose proof (Rcmp_spec x y) as S.
  destruct (Rcmp x y); f_equal.
  - symmetry; apply Rmin_left; lra.
  - symmetry; apply Rmin_left; lra.
  - symmetry; apply Rmin_right; lra.
Qed.

Lemma pow_Num_pos (x y : R) :
  0 < x -> y <> 0 -> pow (Num x) (Num y) = Num (Rpower x y).
Proof.
  intros Hx Hy. unfold pow, Rsgn.
  pose proof (Rcmp_spec y 0) as S.
  rewrite (Rcmp_Gt x 0 Hx).
  destruct (Rcmp y 0); [contradiction | reflexivity | reflexivity].
Qed.

Lemma sign_zero : sign (Num 0) = Num 0.
Proof. unfold sign, sgn, Rsgn. now rewrite Rcmp_Eq. Qed.

Lemma Rpower_cube (r : R) : 0 < r -> Rpower r 3 = r * r * r.
Proof.
  intros Hr. replace 3 with (INR 3) at 1 by (simpl; lra).
  rewrite Rpower_pow by assumption. simpl. ring.
Qed.

Lemma cbrt_cube (r : R) : 0 < r -> Rpower (r * r * r) (1 / 3) = r.
Proof.
  intros Hr. rewrite <- Rpower_cube by assumption.
  rewrite Rpower_mult. replace (3 * (1 / 3)) with 1 by field.
  now apply Rpower_1.
Qed.

Lemma cube_pos (r : R) : 0 < r -> 0 < r * r * r.
Proof.
  intros Hr. assert (0 < r * r) by (apply Rmult_lt_0_compat; lra).
  apply Rmult_lt_0_compat; lra.
Qed.

Lemma sphere_pos (r : R) : 0 < r -> 0 < 4 / 3 * PI * (r * r * r).
Proof.
  intros Hr. pose proof (cube_pos r Hr). pose proof PI_RGT_0.
  apply Rmult_lt_0_compat; lra.
Qed.

Lemma Rpower_one_base (e : R) : Rpower 1 e = 1.
Proof. unfold Rpower. rewrite ln_1, Rmult_0_r. apply exp_0. Qed.

(** From the Machin-like series of the Standard Library. *)
Lemma PI_bounds : 3.1415 < PI < 3.1416.
Proof.
  pose proof (PI_2_3_7_ineq 2) as [Hlo Hhi].
  unfold PI_2_3_7_tg, tg_alt, Ratan_seq in Hlo, Hhi.
  cbn [sum_f_R0 Nat.mul Nat.add Rpow_def.pow INR] in Hlo, Hhi.
  split; lra.
Qed.

Lemma PI_pos : 0 < PI.
Proof. exact PI_RGT_0. Qed.

End FiniteArithmetic.


(** ** Round trip of fill and free step *)

Lemma calculateMoles_Num (P V T : R) :
  T <> 0 -> calculateMoles (Num P) (Num V) (Num T) = Num (P * V / (8.314 * T)).
Proof.
  intros HT. unfold calculateMoles, R_gas. cbn [mul].
  apply div_Num. lra.
Qed.

Lemma calculateVolume_Num (n T P : R) :
  0 < P -> calculateVolume (Num n) (Num T) (Num P) = Num (n * 8.314 * T / P).
Proof.
  intros HP. unfold calculateVolume, R_gas.
  replace (Num P <=? Num 0)%js with false
    by (symmetry; apply le_Num_false; assumption).
  cbn [mul]. apply div_Num. lra.
Qed.

Lemma sphere_volume_Num (r : R) :
  0 < r ->
  ((Num 4 / Num 3) * Math_PI * pow (Num r) (Num 3))%js
  = Num (4 / 3 * PI * (r * r * r)).
Proof.
  intros Hr. unfold Math_PI.
  rewrite div_Num by lra. rewrite pow_Num_pos by lra.
  rewrite Rpower_cube by assumption. reflexivity.
Qed.

Lemma sphere_radius_Num (V : R) :
  0 < V ->
  pow ((Num 3 * Num V) / (Num 4 * Math_PI))%js (Num 1 / Num 3)%js
  = Num (Rpower (3 * V / (4 * PI)) (1 / 3)).
Proof.
  intros HV. unfold Math_PI. cbn [mul].
  pose proof PI_pos as Hpi.
  rewrite !div_Num by lra.
  apply pow_Num_pos; [| lra].
  apply Rdiv_lt_0_compat; lra.
Qed.

Lemma gasLaws_not_GayLussac (s : SimulationState) :
  mode s <> GAY_LUSSAC ->
  gasLaws s =
  let V := calculateVolume (moles (balloon s)) (temperature (env s))
                           (pressure (env s)) in
  s ;> volume_ V
    ;> radius_ (pow ((Num 3 * V) / (Num 4 * Math_PI))%js (Num 1 / Num 3)%js).
Proof.
  intros Hm. unfold gasLaws.
  destruct (mode s); try reflexivity. contradiction.
Qed.

Lemma simulationLoop_not_flying (dt : num) (s : SimulationState) :
  Mode_eqb (mode s) MISSION && isRunning s = false ->
  simulationLoop dt s = (gasLaws s, limits (gasLaws s)).
Proof.
  intros H. unfold simulationLoop, environmentUpdate. rewrite H.
  unfold forcesAndMovement.
  replace (mode (gasLaws s)) with (mode s)
    by (unfold gasLaws; destruct (Mode_eqb (mode s) GAY_LUSSAC); reflexivity).
  replace (isRunning (gasLaws s)) with (isRunning s)
    by (unfold gasLaws; destruct (Mode_eqb (mode s) GAY_LUSSAC); reflexivity).
  rewrite H. reflexivity.
Qed.

(** The fill, on finite slider values. *)
Lemma recalculateMoles_Num (P T r : R) (ui : UI) (s : SimulationState) :
  T <> 0 -> 0 < r ->
  sliderPressure ui = Num P ->
  sliderTemp ui = Num T ->
  sliderInitialRadius ui = Num r ->
  let V := 4 / 3 * PI * (r * r * r) in
  recalculateMoles ui s =
  s ;> moles_ (Num (P * V / (8.314 * T))) ;> volume_ (Num V) ;> radius_ (Num r).
Proof.
  intros HT Hr HuP HuT Hur V.
  unfold recalculateMoles. rewrite HuP, HuT, Hur.
  rewrite sphere_volume_Num by assumption.
  rewrite calculateMoles_Num by assumption. reflexivity.
Qed.

(** Parts 1 to 3 of a step outside Gay-Lussac mode and outside a running
    mission, on finite numbers that give a positive volume. *)
Lemma free_step_Num (dt : num) (s : SimulationState) (n T P : R) :
  mode s <> GAY_LUSSAC ->
  Mode_eqb (mode s) MISSION && isRunning s = false ->
  moles (balloon s) = Num n ->
  temperature (env s) = Num T ->
  pressure (env s) = Num P ->
  0 < P -> 0 < n * 8.314 * T / P ->
  let V := n * 8.314 * T / P in
  fst (simulationLoop dt s) =
  s ;> volume_ (Num V) ;> radius_ (Num (Rpower (3 * V / (4 * PI)) (1 / 3))).
Proof.
  intros Hm Hfly Hn HT HP HPpos HV V.
  rewrite simulationLoop_not_flying by assumption. cbn [fst].
  rewrite gasLaws_not_GayLussac by assumption.
  cbn zeta. rewrite Hn, HT, HP, calculateVolume_Num by assumption.
  fold V. rewrite sphere_radius_Num by assumption. reflexivity.
Qed.

(** C1: after a fill at pressure P, temperature T and radius r (all
    positive), which sets moles = P V / (R T) with V = (4/3) pi r^3, one step
    in free mode with the same pressure and temperature computes
    volume = moles R T / P and radius = cbrt (3 volume / (4 pi)), and these
    are V and r again. The step computes them from the moles, the pressure
    and the temperature alone: whatever volume and radius the state holds
    when the step starts, it ends with V and r. *)
Theorem fill_then_free_step_roundtrip
  (P T r : R) (ui : UI) (s : SimulationState) (dt : num) :
  0 < P -> 0 < T -> 0 < r ->
  sliderPressure ui = Num P ->
  sliderTemp ui = Num T ->
  sliderInitialRadius ui = Num r ->
  mode s = IDLE ->
  pressure (env s) = Num P ->
  temperature (env s) = Num T ->
  let V := 4 / 3 * PI * (r * r * r) in
  let filled := recalculateMoles ui s in
  let stepped := fst (simulationLoop dt filled) in
  moles (balloon filled) = Num (P * V / (8.314 * T)) /\
  volume (balloon filled) = Num V /\
  radius (balloon filled) = Num r /\
  moles (balloon stepped) = moles (balloon filled) /\
  volume (balloon stepped) = Num (P * V / (8.314 * T) * 8.314 * T / P) /\
  volume (balloon stepped) = Num V /\
  radius (balloon stepped) = Num (Rpower (3 * V / (4 * PI)) (1 / 3)) /\
  radius (balloon stepped) = Num r /\
  (forall v rho : num,
     let held := filled ;> volume_ v ;> radius_ rho in
     let recomputed := fst (simulationLoop dt held) in
     volume (balloon held) = v /\ radius (balloon held) = rho /\
     volume (balloon recomputed)
     = calculateVolume (moles (balloon filled)) (Num T) (Num P) /\
     volume (balloon recomputed) = Num V /\
     radius (balloon recomputed)
     = pow ((Num 3 * volume (balloon recomputed)) / (Num 4 * Math_PI))%js
           (Num 1 / Num 3)%js /\
     radius (balloon recomputed) = Num r).
Proof.
  intros HP HT Hr HuP HuT Hur Hmode HsP HsT V filled stepped.
  pose proof PI_pos as Hpi.
  assert (HV : 0 < V) by (apply sphere_pos; assumption).
  assert (Hfill : filled =
    s ;> moles_ (Num (P * V / (8.314 * T))) ;> volume_ (Num V) ;> radius_ (Num r))
    by (apply recalculateMoles_Num; try assumption; lra).
  assert (Hback : P * V / (8.314 * T) * 8.314 * T / P = V) by (field; lra).
  assert (Hcbrt : Rpower (3 * V / (4 * PI)) (1 / 3) = r).
  { replace (3 * V / (4 * PI)) with (r * r * r) by (unfold V; field; lra).
    now apply cbrt_cube. }
  assert (Hany : forall v rho : num,
    fst (simulationLoop dt (filled ;> volume_ v ;> radius_ rho)) =
    filled ;> volume_ v ;> radius_ rho
           ;> volume_ (Num (P * V / (8.314 * T) * 8.314 * T / P))
           ;> radius_ (Num (Rpower
                (3 * (P * V / (8.314 * T) * 8.314 * T / P) / (4 * PI)) (1 / 3)))).
  { intros v rho.
    apply free_step_Num; rewrite ?Hfill; cbn;
      rewrite ?Hmode; try assumption; try reflexivity; try discriminate.
    rewrite Hback. assumption. }
  assert (Hstep : stepped =
    filled ;> volume_ (Num (P * V / (8.314 * T) * 8.314 * T / P))
           ;> radius_ (Num (Rpower
                (3 * (P * V / (8.314 * T) * 8.314 * T / P) / (4 * PI)) (1 / 3)))).
  { apply free_step_Num; rewrite ?Hfill; cbn;
      rewrite ?Hmode; try assumption; try reflexivity; try discriminate.
    rewrite Hback. assumption. }
  assert (Hvol : calculateVolume (Num (P * V / (8.314 * T))) (Num T) (Num P)
                 = Num V)
    by (rewrite calculateVolume_Num by assumption; now rewrite Hback).
  assert (Hrad : pow ((Num 3 * Num V) / (Num 4 * Math_PI))%js (Num 1 / Num 3)%js
                 = Num r)
    by (rewrite sphere_radius_Num by assumption; now rewrite Hcbrt).
  do 8 (split; [rewrite ?Hstep, Hfill; cbn; rewrite ?Hback, ?Hcbrt; reflexivity |]).
  intros v rho held recomputed.
  unfold recomputed, held. rewrite (Hany v rho), Hfill.
  cbn -[calculateVolume pow div mul]. rewrite Hback, Hcbrt, Hvol, Hrad.
  repeat split; reflexivity.
Qed.

Lemma fill_then_free_step_roundtrip_witness :
  let ui := {| sliderPressure := Num 50000; sliderTemp := Num 250;
               sliderInitialRadius := Num 2 |} in
  let s := initialState ;> pressure_ (Num 50000) ;> temperature_ (Num 250) in
  let held := recalculateMoles ui s ;> volume_ (Num 0) ;> radius_ (Num 7) in
  radius (balloon s) = Num 1.0 /\
  radius (balloon held) = Num 7 /\
  volume (balloon (fst (simulationLoop (Num 0.1) held)))
  = Num (4 / 3 * PI * (2 * 2 * 2)) /\
  radius (balloon (fst (simulationLoop (Num 0.1) held))) = Num 2.
Proof.
  intros ui s held.
  pose proof (fill_then_free_step_roundtrip 50000 250 2 ui s (Num 0.1)
                ltac:(lra) ltac:(lra) ltac:(lra)
                eq_refl eq_refl eq_refl eq_refl eq_refl eq_refl) as H.
  cbn zeta in H.
  destruct H as (_ & _ & _ & _ & _ & _ & _ & _ & H).
  destruct (H (Num 0) (Num 7)) as (_ & H2 & _ & H4 & _ & H6).
  split; [reflexivity |]. split; [exact H2 |]. split; [exact H4 | exact H6].
Defined.

(** ** The standard fill *)

Lemma standard_fill :
  let V := 4 / 3 * PI * (1.0 * 1.0 * 1.0) in
  recalculateMoles Scenario.standard_ui initialState =
  initialState ;> moles_ (Num (101325 * V / (8.314 * 293)))
               ;> volume_ (Num V) ;> radius_ (Num 1.0).
Proof.
  apply recalculateMoles_Num; try reflexivity; lra.
Qed.

Lemma standard_moles_bounds :
  174.22 < 101325 * (4 / 3 * PI * (1.0 * 1.0 * 1.0)) / (8.314 * 293) < 174.24.
Proof. pose proof PI_bounds. split; lra. Qed.

(** C9, as stated, fails: the fill at 101325 Pa, 293 K and radius 1.0 m does
    not give 172.5 mol, not even within 1 mol. *)
Lemma standard_fill_is_not_172_5_mol :
  ~ exists n,
      moles (balloon (recalculateMoles Scenario.standard_ui initialState)) = Num n
      /\ Spec.approx 1 n 172.5.
Proof.
  intros (n & Hn & Happ). rewrite standard_fill in Hn. cbn in Hn.
  injection Hn as Hn. pose proof standard_moles_bounds as B.
  unfold Spec.approx in Happ. pose proof (Rle_abs (n - 172.5)). lra.
Qed.

(** C9, amended: the fill at 101325 Pa, 293 K and radius 1.0 m with helium
    gives V = (4/3) pi, about 4.19 m^3, and moles = P V / (R T) with
    R = 8.314, about 174.23 mol; the free step that follows with the same
    pressure and temperature gives the radius 1.0 m. *)
Theorem standard_fill_moles_and_radius :
  let filled := recalculateMoles Scenario.standard_ui initialState in
  let stepped := fst (simulationLoop (Num 0.1) filled) in
  gasType (balloon filled) = HE /\
  exists V n,
    volume (balloon filled) = Num V /\ Spec.approx 0.005 V 4.19 /\
    moles (balloon filled) = Num n /\ n = 101325 * V / (8.314 * 293) /\
    Spec.approx 0.01 n 174.23 /\
    radius (balloon stepped) = Num 1.0.
Proof.
  intros filled stepped. split; [reflexivity |].
  set (V := 4 / 3 * PI * (1.0 * 1.0 * 1.0)).
  set (n := 101325 * V / (8.314 * 293)).
  pose proof PI_bounds as Hpi.
  pose proof standard_moles_bounds as Hn. fold V in Hn. fold n in Hn.
  assert (Hfill : filled = initialState ;> moles_ (Num n) ;> volume_ (Num V)
                                        ;> radius_ (Num 1.0))
    by exact standard_fill.
  assert (Hback : n * 8.314 * 293 / 101325 = V) by (unfold n; lra).
  assert (HV : 0 < V) by (unfold V; lra).
  assert (Hstep : stepped =
    filled ;> volume_ (Num (n * 8.314 * 293 / 101325))
           ;> radius_ (Num (Rpower (3 * (n * 8.314 * 293 / 101325) / (4 * PI))
                                   (1 / 3)))).
  { apply free_step_Num; rewrite ?Hfill; try reflexivity; try discriminate;
      try lra. }
  exists V, n. rewrite Hstep, Hfill. cbn -[Rpower].
  repeat split; try reflexivity.
  - unfold Spec.approx. apply Rabs_le. unfold V. lra.
  - unfold Spec.approx. apply Rabs_le. lra.
  - f_equal. rewrite Hback.
    replace (3 * V / (4 * PI)) with (1.0 * 1.0 * 1.0) by (unfold V; field; lra).
    apply cbrt_cube. lra.
Qed.

(** ** The atmosphere model *)

Lemma exponent_pos : 0 < Spec.exponent.
Proof. unfold Spec.exponent. apply Rdiv_lt_0_compat; lra. Qed.

Lemma atm_temperature_Num (h : R) :
  atm_temperature (getAtmosphere (Num h)) = Num (Spec.temperature_at h).
Proof.
  unfold getAtmosphere. cbn [atm_temperature mul sub add neg].
  unfold Spec.temperature_at.
  change (293 + - (0.0065 * h)) with (293 - 0.0065 * h).
  destruct (Rlt_dec (293 - 0.0065 * h) 1) as [Ht | Ht].
  - replace (Num (293 - 0.0065 * h) <? Num 1)%js with true
      by (symmetry; apply lt_Num; assumption).
    rewrite Rmax_right by lra. reflexivity.
  - replace (Num (293 - 0.0065 * h) <? Num 1)%js with false
      by (symmetry; apply lt_Num_false; lra).
    rewrite Rmax_left by lra. reflexivity.
Qed.

Lemma atm_pressure_Num (h : R) :
  atm_pressure (getAtmosphere (Num h)) = Num (Spec.pressure_at h).
Proof.
  pose proof exponent_pos as He.
  unfold getAtmosphere, R_gas. cbn [atm_pressure mul sub add neg].
  rewrite !div_Num by lra. cbn [sub add neg].
  unfold Spec.pressure_at, Spec.base_at.
  change (1 + - (0.0065 * h / 293)) with (1 - 0.0065 * h / 293).
  change (9.81 * 0.0289644 / (8.314 * 0.0065)) with Spec.exponent.
  destruct (Rlt_dec 0 (1 - 0.0065 * h / 293)) as [Hb | Hb].
  - replace (Num (1 - 0.0065 * h / 293) >? Num 0)%js with true
      by (symmetry; apply gt_Num; assumption).
    rewrite pow_Num_pos by lra. reflexivity.
  - replace (Num (1 - 0.0065 * h / 293) >? Num 0)%js with false
      by (symmetry; apply gt_Num_false; lra).
    reflexivity.
Qed.

Lemma temperature_at_ge_1 (h : R) : 1 <= Spec.temperature_at h.
Proof. unfold Spec.temperature_at. apply Rmax_r. Qed.

Lemma pressure_at_nonneg (h : R) : 0 <= Spec.pressure_at h.
Proof.
  unfold Spec.pressure_at. destruct (Rlt_dec 0 (Spec.base_at h)); [| lra].
  apply Rmult_le_pos; [lra |]. left. apply exp_pos.
Qed.

Lemma temperature_at_0 : Spec.temperature_at 0 = 293.
Proof. unfold Spec.temperature_at. rewrite Rmax_left by lra. lra. Qed.

Lemma pressure_at_0 : Spec.pressure_at 0 = 101325.
Proof.
  unfold Spec.pressure_at, Spec.base_at.
  replace (1 - 0.0065 * 0 / 293) with 1 by field.
  destruct (Rlt_dec 0 1) as [_ | H]; [| lra].
  rewrite Rpower_one_base. ring.
Qed.

(** C2: at every real altitude the atmosphere model is defined: it returns
    the temperature 293 - 0.0065 h clamped below at 1 and the barometric
    pressure 101325 (1 - 0.0065 h / 293)^(g M / (R L)), which is 0 once the
    base term is not positive. *)
Theorem getAtmosphere_spec (h : R) :
  getAtmosphere (Num h) =
  {| atm_pressure :=
       Num (if Rlt_dec 0 (1 - 0.0065 * h / 293)
            then 101325 * Rpower (1 - 0.0065 * h / 293)
                                 ((9.81 * 0.0289644) / (8.314 * 0.0065))
            else 0);
     atm_temperature := Num (Rmax (293 - 0.0065 * h) 1) |}.
Proof.
  pose proof (atm_pressure_Num h) as Hp.
  pose proof (atm_temperature_Num h) as Ht.
  destruct (getAtmosphere (Num h)) as [p t]. cbn in Hp, Ht.
  rewrite Hp, Ht. reflexivity.
Qed.

(** ** Boyle's law *)

Lemma boyle_step (dt : num) (s : SimulationState) (n T p : R) :
  mode s = BOYLE ->
  moles (balloon s) = Num n ->
  temperature (env s) = Num T ->
  pressure (env s) = Num p ->
  0 < p ->
  let s' := fst (simulationLoop dt s) in
  pressure (env s') = Num p /\
  temperature (env s') = Num T /\
  moles (balloon s') = Num n /\
  volume (balloon s') = Num (n * 8.314 * T / p).
Proof.
  intros Hm Hn HT Hp Hpos s'. unfold s'.
  rewrite simulationLoop_not_flying by (rewrite Hm; reflexivity).
  rewrite gasLaws_not_GayLussac by (rewrite Hm; discriminate).
  cbn -[calculateVolume pow div mul].
  rewrite Hn, HT, Hp, calculateVolume_Num by assumption.
  repeat split; reflexivity.
Qed.

(** C4: in Boyle mode, two states produced by steps with the same moles and
    the same temperature, each at a positive pressure, have the same product
    of pressure and volume, namely moles R temperature. *)
Theorem boyle_product_invariant
  (dt1 dt2 : num) (s1 s2 : SimulationState) (n T p1 p2 : R) :
  mode s1 = BOYLE -> mode s2 = BOYLE ->
  moles (balloon s1) = Num n -> moles (balloon s2) = Num n ->
  temperature (env s1) = Num T -> temperature (env s2) = Num T ->
  pressure (env s1) = Num p1 -> pressure (env s2) = Num p2 ->
  0 < p1 -> 0 < p2 ->
  let s1' := fst (simulationLoop dt1 s1) in
  let s2' := fst (simulationLoop dt2 s2) in
  (pressure (env s1') * volume (balloon s1'))%js = Num (n * 8.314 * T) /\
  (pressure (env s2') * volume (balloon s2'))%js = Num (n * 8.314 * T) /\
  (pressure (env s1') * volume (balloon s1'))%js
  = (pressure (env s2') * volume (balloon s2'))%js.
Proof.
  intros Hm1 Hm2 Hn1 Hn2 HT1 HT2 Hp1 Hp2 Hpos1 Hpos2 s1' s2'.
  destruct (boyle_step dt1 s1 n T p1 Hm1 Hn1 HT1 Hp1 Hpos1) as (Ep1 & _ & _ & Ev1).
  destruct (boyle_step dt2 s2 n T p2 Hm2 Hn2 HT2 Hp2 Hpos2) as (Ep2 & _ & _ & Ev2).
  fold s1' in Ep1, Ev1. fold s2' in Ep2, Ev2.
  rewrite Ep1, Ev1, Ep2, Ev2. cbn [mul].
  assert (E1 : p1 * (n * 8.314 * T / p1) = n * 8.314 * T) by (field; lra).
  assert (E2 : p2 * (n * 8.314 * T / p2) = n * 8.314 * T) by (field; lra).
  rewrite E1, E2. repeat split; reflexivity.
Qed.

Lemma boyle_product_invariant_witness :
  let s1 := initialState ;> mode_ BOYLE ;> moles_ (Num 100) in
  let s2 := s1 ;> pressure_ (Num 200000) in
  (pressure (env (fst (simulationLoop (Num 0.1) s1)))
   * volume (balloon (fst (simulationLoop (Num 0.1) s1))))%js
  = (pressure (env (fst (simulationLoop (Num 0.1) s2)))
     * volume (balloon (fst (simulationLoop (Num 0.1) s2))))%js.
Proof.
  intros s1 s2.
  apply (boyle_product_invariant (Num 0.1) (Num 0.1) s1 s2 100 293 101325 200000);
    try reflexivity; lra.
Defined.

(** ** Mission flight *)

Lemma flying_iff (s : SimulationState) :
  Mode_eqb (mode s) MISSION && isRunning s = true <->
  mode s = MISSION /\ isRunning s = true.
Proof.
  rewrite andb_true_iff. destruct (mode s); cbn; intuition discriminate.
Qed.

Lemma molarMass_Num (g : GasType) :
  exists m, molarMass (GAS_PROPERTIES g) = Num m /\ 0 < m.
Proof.
  destruct g; cbn; eexists; (split; [reflexivity | lra]).
Qed.

(** Part 1 of the loop on the ground and at rest. *)
Lemma environmentUpdate_at_rest (d : R) (s : SimulationState) :
  mode s = MISSION -> isRunning s = true ->
  altitude (env s) = Num 0 ->
  velocity (balloon s) = Num 0 ->
  environmentUpdate (Num d) s =
  s ;> altitude_ (Num 0) ;> positionY_ (Num 0)
    ;> pressure_ (Num 101325) ;> temperature_ (Num 293).
Proof.
  intros Hm Hr Ha Hv. unfold environmentUpdate.
  rewrite (proj2 (flying_iff s)) by (split; assumption).
  cbn -[getAtmosphere]. rewrite Ha, Hv. cbn [add mul].
  replace (0 + 0 * d) with 0 by ring.
  rewrite atm_pressure_Num, atm_temperature_Num.
  rewrite pressure_at_0, temperature_at_0. reflexivity.
Qed.

(** The forces of part 3 on a state whose numbers are finite. *)
Section Forces.

Variables (s : SimulationState) (p T g n V r v mp mb : R).
Hypothesis Hp : pressure (env s) = Num p.
Hypothesis HT : temperature (env s) = Num T.
Hypothesis Hg : gravity (env s) = Num g.
Hypothesis Hn : moles (balloon s) = Num n.
Hypothesis HV : volume (balloon s) = Num V.
Hypothesis Hr : radius (balloon s) = Num r.
Hypothesis Hmp : massPayload (balloon s) = Num mp.
Hypothesis Hmb : massBalloon (balloon s) = Num mb.
Hypothesis HTpos : 0 < T.

Lemma rhoAir_Num : rhoAir s = Num (p * 0.0289644 / (8.314 * T)).
Proof.
  unfold rhoAir, M_air, R_gas. rewrite Hp, HT. cbn [mul].
  apply div_Num. lra.
Qed.

Lemma liftForce_Num : liftForce s = Num (p * 0.0289644 / (8.314 * T) * V * g).
Proof. unfold liftForce. rewrite rhoAir_Num, HV, Hg. reflexivity. Qed.

Lemma totalMass_Num :
  exists mg, 0 < mg /\ totalMass s = Num (mp + mb + n * mg).
Proof.
  destruct (molarMass_Num (gasType (balloon s))) as (mg & Emg & Hmg).
  exists mg. split; [assumption |].
  unfold totalMass, massGas. rewrite Hmp, Hmb, Hn, Emg. reflexivity.
Qed.

Lemma dragForce_at_rest :
  velocity (balloon s) = Num 0 -> dragForce s = Num 0.
Proof.
  intros Hv. unfold dragForce, Cd, Math_PI.
  rewrite Hv, Hr, rhoAir_Num, sign_zero. cbn [mul neg]. f_equal. ring.
Qed.

End Forces.

(** Parts 1 and 2 of the loop on the ground and at rest. *)
Lemma resolved_at_rest (d n : R) (s : SimulationState) :
  mode s = MISSION -> isRunning s = true ->
  altitude (env s) = Num 0 ->
  velocity (balloon s) = Num 0 ->
  moles (balloon s) = Num n ->
  0 < n ->
  let V := n * 8.314 * 293 / 101325 in
  gasLaws (environmentUpdate (Num d) s) =
  s ;> altitude_ (Num 0) ;> positionY_ (Num 0)
    ;> pressure_ (Num 101325) ;> temperature_ (Num 293)
    ;> volume_ (Num V)
    ;> radius_ (Num (Rpower (3 * V / (4 * PI)) (1 / 3))).
Proof.
  intros Hm Hr Ha Hv Hn Hpos V.
  rewrite environmentUpdate_at_rest by assumption.
  rewrite gasLaws_not_GayLussac by (cbn; rewrite Hm; discriminate).
  cbn -[calculateVolume pow div mul Rpower].
  rewrite Hn, calculateVolume_Num by lra. fold V.
  rewrite sphere_radius_Num; [reflexivity |].
  unfold V. apply Rdiv_lt_0_compat; lra.
Qed.

(** C5: in mission mode and running, on the ground and at rest, when the
    lift computed by the step, rhoAir volume g, exceeds the weight
    (massPayload + massBalloon + moles M_gas) g, one step of 0.1 s leaves a
    strictly positive velocity: the explicit Euler update of the velocity by
    (lift - weight + drag) / totalMass times dt, with no drag at rest. *)
Theorem mission_liftoff_velocity
  (s : SimulationState) (n mp mb g mg : R) :
  mode s = MISSION -> isRunning s = true ->
  altitude (env s) = Num 0 ->
  velocity (balloon s) = Num 0 ->
  gravity (env s) = Num g ->
  moles (balloon s) = Num n ->
  massPayload (balloon s) = Num mp ->
  massBalloon (balloon s) = Num mb ->
  molarMass (GAS_PROPERTIES (gasType (balloon s))) = Num mg ->
  0 < n ->
  let V := n * 8.314 * 293 / 101325 in
  let rho := 101325 * 0.0289644 / (8.314 * 293) in
  let lift := rho * V * g in
  let m := mp + mb + n * mg in
  let weight := m * g in
  0 < m ->
  weight < lift ->
  let s1 := gasLaws (environmentUpdate (Num 0.1) s) in
  let s' := fst (simulationLoop (Num 0.1) s) in
  volume (balloon s1) = Num V /\
  rhoAir s1 = Num rho /\
  liftForce s1 = Num lift /\
  totalMass s1 = Num m /\
  gravityForce s1 = Num weight /\
  dragForce s1 = Num 0 /\
  (liftForce s1 >? gravityForce s1)%js = true /\
  velocity (balloon s') =
    (velocity (balloon s)
     + ((liftForce s1 - gravityForce s1 + dragForce s1) / totalMass s1)
       * Num 0.1)%js /\
  velocity (balloon s') = Num (0 + (lift - weight + 0) / m * 0.1) /\
  (velocity (balloon s') >? Num 0)%js = true /\
  altitude (env s') = Num 0.
Proof.
  intros Hm Hr Ha Hv Hg Hn Hmp Hmb Hmg Hpos V rho lift m weight Hmass Hlift s1 s'.
  set (r := Rpower (3 * V / (4 * PI)) (1 / 3)).
  assert (Es1 : s1 =
    s ;> altitude_ (Num 0) ;> positionY_ (Num 0)
      ;> pressure_ (Num 101325) ;> temperature_ (Num 293)
      ;> volume_ (Num V) ;> radius_ (Num r))
    by (apply resolved_at_rest; assumption).
  assert (Hm1 : mode s1 = MISSION) by (rewrite Es1; exact Hm).
  assert (Hr1 : isRunning s1 = true) by (rewrite Es1; exact Hr).
  assert (Ha1 : altitude (env s1) = Num 0) by (rewrite Es1; reflexivity).
  assert (Hv1 : velocity (balloon s1) = Num 0) by (rewrite Es1; exact Hv).
  assert (Hp1 : pressure (env s1) = Num 101325) by (rewrite Es1; reflexivity).
  assert (HT1 : temperature (env s1) = Num 293) by (rewrite Es1; reflexivity).
  assert (Hg1 : gravity (env s1) = Num g) by (rewrite Es1; exact Hg).
  assert (Hn1 : moles (balloon s1) = Num n) by (rewrite Es1; exact Hn).
  assert (HV1 : volume (balloon s1) = Num V) by (rewrite Es1; reflexivity).
  assert (Hrad1 : radius (balloon s1) = Num r) by (rewrite Es1; reflexivity).
  assert (Hmp1 : massPayload (balloon s1) = Num mp) by (rewrite Es1; exact Hmp).
  assert (Hmb1 : massBalloon (balloon s1) = Num mb) by (rewrite Es1; exact Hmb).
  assert (Hmg1 : molarMass (GAS_PROPERTIES (gasType (balloon s1))) = Num mg)
    by (rewrite Es1; exact Hmg).
  assert (HT293 : 0 < 293) by lra.
  pose proof (rhoAir_Num s1 _ _ Hp1 HT1 HT293) as ER.
  pose proof (liftForce_Num s1 _ _ _ _ Hp1 HT1 Hg1 HV1 HT293) as EL.
  pose proof (dragForce_at_rest s1 _ _ _ Hp1 HT1 Hrad1 HT293 Hv1) as ED.
  assert (EM : totalMass s1 = Num m)
    by (unfold totalMass, massGas; rewrite Hmp1, Hmb1, Hn1, Hmg1; reflexivity).
  assert (EW : gravityForce s1 = Num weight)
    by (unfold gravityForce; rewrite EM, Hg1; reflexivity).
  fold rho in ER, EL. fold lift in EL.
  assert (Es' : s' = forcesAndMovement (Num 0.1) s1) by reflexivity.
  clearbody s1 s'.
  assert (Evel : velocity (balloon s') = Num (0 + (lift + - weight + 0) / m * 0.1)
                 /\ altitude (env s') = Num 0).
  { rewrite Es'. unfold forcesAndMovement.
    rewrite (proj2 (flying_iff s1)) by (split; assumption).
    cbn -[liftForce gravityForce dragForce totalMass div].
    rewrite Ha1. replace (Num 0 <? Num 0)%js with false
      by (symmetry; apply lt_Num_false; lra).
    cbn -[liftForce gravityForce dragForce totalMass div].
    rewrite Hv1, EL, EW, ED, EM. cbn [sub add neg].
    rewrite div_Num by lra. cbn [mul add]. split; [reflexivity | exact Ha1]. }
  destruct Evel as [Evel Ealt].
  split; [exact HV1 |]. split; [exact ER |]. split; [exact EL |].
  split; [exact EM |]. split; [exact EW |]. split; [exact ED |].
  split; [rewrite EL, EW; apply gt_Num; exact Hlift |].
  split; [| split; [exact Evel |]; split; [| exact Ealt]].
  - rewrite Evel, Hv, EL, EW, ED, EM. cbn [sub add neg].
    rewrite div_Num by lra. reflexivity.
  - rewrite Evel. apply gt_Num.
    assert (0 < (lift + - weight + 0) / m) by (apply Rdiv_lt_0_compat; lra).
    lra.
Qed.

Lemma mission_liftoff_velocity_witness :
  let s := initialState ;> mode_ MISSION ;> isRunning_ true
                        ;> moles_ (Num 174) in
  let s1 := gasLaws (environmentUpdate (Num 0.1) s) in
  let s' := fst (simulationLoop (Num 0.1) s) in
  gravityForce s1 = Num ((0.5 + 0.2 + 174 * 0.0040026) * 9.81) /\
  liftForce s1
  = Num (101325 * 0.0289644 / (8.314 * 293)
         * (174 * 8.314 * 293 / 101325) * 9.81) /\
  (velocity (balloon s') >? Num 0)%js = true.
Proof.
  intros s s1 s'.
  pose proof (mission_liftoff_velocity s 174 0.5 0.2 9.81 0.0040026
                eq_refl eq_refl eq_refl eq_refl eq_refl eq_refl eq_refl
                eq_refl eq_refl ltac:(lra)) as H.
  cbn zeta in H.
  destruct (H ltac:(lra) ltac:(lra))
    as (_ & _ & HL & _ & HW & _ & _ & _ & _ & Hv & _).
  split; [exact HW |]. split; [exact HL | exact Hv].
Defined.

(** ** The floor *)

Lemma gasLaws_frame (s : SimulationState) :
  mode (gasLaws s) = mode s /\
  isRunning (gasLaws s) = isRunning s /\
  env (gasLaws s) = env s /\
  animation (gasLaws s) = animation s /\
  moles (balloon (gasLaws s)) = moles (balloon s) /\
  maxRadius (balloon (gasLaws s)) = maxRadius (balloon s) /\
  positionY (balloon (gasLaws s)) = positionY (balloon s) /\
  velocity (balloon (gasLaws s)) = velocity (balloon s) /\
  constantVolume (balloon (gasLaws s)) = constantVolume (balloon s).
Proof.
  unfold gasLaws. destruct (Mode_eqb (mode s) GAY_LUSSAC);
    repeat split; reflexivity.
Qed.

Lemma not_flying_step (dt : num) (s : SimulationState) :
  Mode_eqb (mode s) MISSION && isRunning s = false ->
  env (fst (simulationLoop dt s)) = env s.
Proof.
  intros H. rewrite simulationLoop_not_flying by assumption.
  apply gasLaws_frame.
Qed.

Lemma environmentUpdate_flying (a v d : R) (s : SimulationState) :
  mode s = MISSION -> isRunning s = true ->
  altitude (env s) = Num a ->
  velocity (balloon s) = Num v ->
  let s1 := environmentUpdate (Num d) s in
  mode s1 = MISSION /\ isRunning s1 = true /\
  altitude (env s1) = Num (a + v * d) /\
  positionY (balloon s1) = Num (a + v * d).
Proof.
  intros Hm Hr Ha Hv. unfold environmentUpdate.
  rewrite (proj2 (flying_iff s)) by (split; assumption).
  cbn -[getAtmosphere]. rewrite Ha, Hv. repeat split; assumption.
Qed.

(** Part 3 of the loop ends with the floor test. *)
Lemma forcesAndMovement_floor (dt : num) (s : SimulationState) (a : R) :
  mode s = MISSION -> isRunning s = true ->
  altitude (env s) = Num a ->
  let s' := forcesAndMovement dt s in
  (a < 0 -> altitude (env s') = Num 0 /\ positionY (balloon s') = Num 0
            /\ velocity (balloon s') = Num 0) /\
  (0 <= a -> altitude (env s') = Num a).
Proof.
  intros Hm Hr Ha. unfold forcesAndMovement.
  rewrite (proj2 (flying_iff s)) by (split; assumption).
  cbn -[liftForce gravityForce dragForce totalMass div add sub mul lt].
  rewrite Ha. split; intros Hneg.
  - replace (Num a <? Num 0)%js with true
      by (symmetry; apply lt_Num; assumption).
    repeat split; reflexivity.
  - replace (Num a <? Num 0)%js with false
      by (symmetry; apply lt_Num_false; assumption).
    exact Ha.
Qed.

(** A flying step moves the altitude by velocity times dt and stops at the
    floor. *)
Lemma flying_step_floor (s : SimulationState) (a v d : R) :
  mode s = MISSION -> isRunning s = true ->
  altitude (env s) = Num a ->
  velocity (balloon s) = Num v ->
  let s' := fst (simulationLoop (Num d) s) in
  (a + v * d < 0 -> altitude (env s') = Num 0 /\ positionY (balloon s') = Num 0
                    /\ velocity (balloon s') = Num 0) /\
  (0 <= a + v * d -> altitude (env s') = Num (a + v * d)).
Proof.
  intros Hm Hr Ha Hv.
  destruct (environmentUpdate_flying a v d s Hm Hr Ha Hv) as (Hm1 & Hr1 & Ha1 & _).
  destruct (gasLaws_frame (environmentUpdate (Num d) s))
    as (Gm & Gr & Ge & _).
  apply (forcesAndMovement_floor (Num d)
           (gasLaws (environmentUpdate (Num d) s)) (a + v * d)).
  - now rewrite Gm.
  - now rewrite Gr.
  - now rewrite Ge.
Qed.

(** C7: a mission step that drives the altitude below 0 ends with altitude,
    positionY and velocity all 0; so every step from a state whose altitude
    is at least 0 ends in a state whose altitude is at least 0. *)
Theorem altitude_floor_invariant (s : SimulationState) (a v d : R) :
  altitude (env s) = Num a ->
  velocity (balloon s) = Num v ->
  let s' := fst (simulationLoop (Num d) s) in
  (mode s = MISSION -> isRunning s = true -> a + v * d < 0 ->
   altitude (env s') = Num 0 /\ positionY (balloon s') = Num 0
   /\ velocity (balloon s') = Num 0) /\
  (0 <= a -> exists a', altitude (env s') = Num a' /\ 0 <= a').
Proof.
  intros Ha Hv s'. split.
  - intros Hm Hr Hneg.
    now apply (flying_step_floor s a v d Hm Hr Ha Hv).
  - intros Hpos.
    destruct (Mode_eqb (mode s) MISSION && isRunning s) eqn:F.
    + apply flying_iff in F. destruct F as [Hm Hr].
      destruct (flying_step_floor s a v d Hm Hr Ha Hv) as [Hlow Hhigh].
      destruct (Rlt_dec (a + v * d) 0) as [Hneg | Hnn].
      * exists 0. split; [now apply Hlow | lra].
      * exists (a + v * d). split; [apply Hhigh |]; lra.
    + exists a. split; [| assumption].
      unfold s'. rewrite not_flying_step by assumption. exact Ha.
Qed.

Lemma altitude_floor_invariant_witness :
  let s := initialState ;> mode_ MISSION ;> isRunning_ true
                        ;> velocity_ (Num (-5)) in
  let s' := fst (simulationLoop (Num 0.1) s) in
  (altitude (env s') = Num 0 /\ positionY (balloon s') = Num 0
   /\ velocity (balloon s') = Num 0) /\
  (exists a', altitude (env s') = Num a' /\ 0 <= a').
Proof.
  intros s s'.
  destruct (altitude_floor_invariant s 0 (-5) 0.1 eq_refl eq_refl) as [Hlow Hpres].
  split.
  - apply Hlow; try reflexivity. lra.
  - apply Hpres. lra.
Defined.

(** ** The time step *)

(** C8, as stated, fails: the step given dt = 1 integrates a whole second
    (the altitude rises by 1 m at 1 m/s), where a step that capped its dt at
    0.1 would rise by 0.1 m. *)
Lemma simulationLoop_does_not_cap_dt :
  altitude (env (fst (simulationLoop (Num 1) Scenario.climbing))) = Num 1 /\
  altitude (env (fst (simulationLoop (min (Num 1) (Num 0.1)) Scenario.climbing)))
  = Num 0.1 /\
  ~ Spec.step_caps_dt (Num 1) Scenario.climbing.
Proof.
  assert (H1 : altitude (env (fst (simulationLoop (Num 1) Scenario.climbing))) = Num 1).
  { destruct (flying_step_floor Scenario.climbing 0 1 1) as [_ H]; try reflexivity.
    rewrite H by lra. f_equal. lra. }
  assert (H2 : altitude (env (fst (simulationLoop (min (Num 1) (Num 0.1)) Scenario.climbing)))
               = Num 0.1).
  { rewrite min_Num. rewrite Rmin_right by lra.
    destruct (flying_step_floor Scenario.climbing 0 1 0.1) as [_ H]; try reflexivity.
    rewrite H by lra. f_equal. lra. }
  split; [exact H1 |]. split; [exact H2 |].
  unfold Spec.step_caps_dt. intros E. rewrite E, H2 in H1.
  injection H1 as H1. lra.
Qed.

(** C8, amended: the cap is applied by the frame function, not by the step.
    [animate] computes min((currentTime - lastTime) / 1000, 0.1), which is at
    most 0.1 for all clock readings, and passes it to the ramp and to the
    step; the step integrates with the dt it receives. *)
Theorem animate_caps_deltaTime (currentTime lastTime : R) (s : SimulationState) :
  let dt := frameDeltaTime (Num currentTime) (Num lastTime) in
  dt = Num (Rmin ((currentTime - lastTime) / 1000) 0.1) /\
  (dt <=? Num 0.1)%js = true /\
  animate (Num currentTime) (Num lastTime) s
  = (Num currentTime, fst (frame dt s), snd (frame dt s)) /\
  snd (frame dt s) = snd (simulationLoop dt (rampUpdate dt s)).
Proof.
  intros dt.
  assert (E : dt = Num (Rmin ((currentTime - lastTime) / 1000) 0.1)).
  { unfold dt, frameDeltaTime. cbn [sub add neg].
    rewrite div_Num by lra. rewrite min_Num. reflexivity. }
  split; [exact E |]. split; [| split].
  - rewrite E. apply le_Num. apply Rmin_r.
  - unfold animate. fold dt. destruct (frame dt s). reflexivity.
  - unfold frame. destruct (simulationLoop dt (rampUpdate dt s)) as [s' r].
    destruct (exploded r); reflexivity.
Qed.

(** ** The burst check *)

Lemma environmentUpdate_frame (dt : num) (s : SimulationState) :
  mode (environmentUpdate dt s) = mode s /\
  isRunning (environmentUpdate dt s) = isRunning s /\
  animation (environmentUpdate dt s) = animation s /\
  moles (balloon (environmentUpdate dt s)) = moles (balloon s) /\
  maxRadius (balloon (environmentUpdate dt s)) = maxRadius (balloon s) /\
  radius (balloon (environmentUpdate dt s)) = radius (balloon s) /\
  volume (balloon (environmentUpdate dt s)) = volume (balloon s).
Proof.
  unfold environmentUpdate.
  destruct (Mode_eqb (mode s) MISSION && isRunning s); repeat split; reflexivity.
Qed.

Lemma forcesAndMovement_frame (dt : num) (s : SimulationState) :
  mode (forcesAndMovement dt s) = mode s /\
  isRunning (forcesAndMovement dt s) = isRunning s /\
  animation (forcesAndMovement dt s) = animation s /\
  moles (balloon (forcesAndMovement dt s)) = moles (balloon s) /\
  maxRadius (balloon (forcesAndMovement dt s)) = maxRadius (balloon s) /\
  radius (balloon (forcesAndMovement dt s)) = radius (balloon s) /\
  volume (balloon (forcesAndMovement dt s)) = volume (balloon s).
Proof.
  unfold forcesAndMovement.
  destruct (Mode_eqb (mode s) MISSION && isRunning s);
    [| repeat split; reflexivity].
  match goal with |- context [if ?c then _ else _] => destruct c end;
    repeat split; reflexivity.
Qed.

Lemma simulationLoop_frame (dt : num) (s : SimulationState) :
  let s' := fst (simulationLoop dt s) in
  mode s' = mode s /\
  isRunning s' = isRunning s /\
  animation s' = animation s /\
  moles (balloon s') = moles (balloon s) /\
  maxRadius (balloon s') = maxRadius (balloon s).
Proof.
  unfold simulationLoop. cbn [fst].
  destruct (forcesAndMovement_frame dt (gasLaws (environmentUpdate dt s)))
    as (F1 & F2 & F3 & F4 & F5 & _).
  destruct (gasLaws_frame (environmentUpdate dt s))
    as (G1 & G2 & _ & G3 & G4 & G5 & _).
  destruct (environmentUpdate_frame dt s) as (E1 & E2 & E3 & E4 & E5 & _).
  repeat split; congruence.
Qed.

(** Part 2 of the loop computes from moles, temperature and pressure, which
    it does not write: running it again changes nothing. *)
Lemma gasLaws_idempotent (s : SimulationState) :
  gasLaws (gasLaws s) = gasLaws s.
Proof.
  unfold gasLaws. destruct (Mode_eqb (mode s) GAY_LUSSAC) eqn:E.
  - rewrite E. reflexivity.
  - cbn -[calculateVolume pow div mul]. rewrite E. reflexivity.
Qed.

Lemma simulationLoop_not_flying_again (dt dt' : num) (s : SimulationState) :
  Mode_eqb (mode s) MISSION && isRunning s = false ->
  simulationLoop dt' (fst (simulationLoop dt s)) = simulationLoop dt s.
Proof.
  intros H. rewrite (simulationLoop_not_flying dt s H). cbn [fst].
  rewrite simulationLoop_not_flying.
  - rewrite gasLaws_idempotent. reflexivity.
  - destruct (gasLaws_frame s) as (G1 & G2 & _). now rewrite G1, G2.
Qed.

Lemma cbrt_ge_5 (x : R) : 125 <= x -> 5 <= Rpower x (1 / 3).
Proof.
  intros Hx. rewrite <- (cbrt_cube 5) at 1 by lra.
  apply Rle_Rpower_l; lra.
Qed.

Lemma overfilled_step (dt : num) :
  exists r, 5 <= r /\
  simulationLoop dt Scenario.overfilled =
  (Scenario.overfilled ;> volume_ (Num (30000 * 8.314 * 293 / 101325))
                       ;> radius_ (Num r),
   {| exploded := true |}).
Proof.
  set (V := 30000 * 8.314 * 293 / 101325).
  exists (Rpower (3 * V / (4 * PI)) (1 / 3)).
  assert (HV : 721 < V) by (unfold V; lra).
  assert (Hr : 5 <= Rpower (3 * V / (4 * PI)) (1 / 3)).
  { apply cbrt_ge_5. pose proof PI_4. pose proof PI_pos.
    apply Rle_trans with (3 * V / 16); [lra |].
    unfold Rdiv. apply Rmult_le_compat_l; [lra |].
    apply Rinv_le_contravar; lra. }
  split; [exact Hr |].
  rewrite simulationLoop_not_flying by reflexivity.
  assert (E : gasLaws Scenario.overfilled =
    Scenario.overfilled ;> volume_ (Num V)
      ;> radius_ (Num (Rpower (3 * V / (4 * PI)) (1 / 3)))).
  { rewrite gasLaws_not_GayLussac by discriminate.
    cbn -[calculateVolume pow div mul Rpower].
    rewrite calculateVolume_Num by lra. fold V.
    rewrite sphere_radius_Num by lra. reflexivity. }
  rewrite E. f_equal. unfold limits. cbn -[Rpower ge].
  replace (Num (Rpower (3 * V / (4 * PI)) (1 / 3)) >=? Num 5.0)%js with true
    by (symmetry; apply ge_Num; lra).
  reflexivity.
Qed.

(** C6, as stated, fails: from the overfilled balloon, whose radius in the
    state is below the limit, the first step crosses the limit and reports
    the burst, and the second step, with no new crossing, reports it again:
    two reports for one crossing. *)
Lemma burst_reported_again_without_crossing :
  snd (steps [Num 0.1; Num 0.1] Scenario.overfilled) = [true; true] /\
  Spec.crossings [Num 0.1; Num 0.1] Scenario.overfilled = 1%nat /\
  ~ Spec.once_per_crossing [Num 0.1; Num 0.1] Scenario.overfilled.
Proof.
  destruct (overfilled_step (Num 0.1)) as (r & Hr & E1).
  assert (E2 : simulationLoop (Num 0.1) (fst (simulationLoop (Num 0.1) Scenario.overfilled))
               = simulationLoop (Num 0.1) Scenario.overfilled)
    by (apply simulationLoop_not_flying_again; reflexivity).
  assert (R1 : snd (steps [Num 0.1; Num 0.1] Scenario.overfilled) = [true; true]).
  { cbn [steps]. destruct (simulationLoop (Num 0.1) Scenario.overfilled)
      as [s1 r1] eqn:S1. cbn [fst] in E2. rewrite E2.
    injection E1 as _ Er. subst r1. reflexivity. }
  assert (R2 : Spec.crossings [Num 0.1; Num 0.1] Scenario.overfilled = 1%nat).
  { cbn [Spec.crossings]. rewrite E2. rewrite E1. cbn [fst].
    unfold Spec.crossing. cbn -[ge].
    replace (Num r >=? Num 5.0)%js with true
      by (symmetry; apply ge_Num; lra).
    replace (Num 1.0 >=? Num 5.0)%js with false
      by (symmetry; apply ge_Num_false; lra).
    reflexivity. }
  split; [exact R1 |]. split; [exact R2 |].
  unfold Spec.once_per_crossing. rewrite R1, R2. cbn. discriminate.
Qed.

(** C6, amended: the step reports exploded = true whenever the state it
    ends in has radius >= maxRadius, on every such step and not once per
    crossing; the burst check writes no field: the state returned is the one
    computed by parts 1 to 3, with mode, isRunning, animation, moles and
    maxRadius as before the step; nothing is reset: outside a running
    mission a further step returns the same state and the same report. *)
Theorem burst_check_level_triggered (dt : num) (s : SimulationState) :
  let s' := fst (simulationLoop dt s) in
  let result := snd (simulationLoop dt s) in
  exploded result = (radius (balloon s') >=? maxRadius (balloon s'))%js /\
  s' = forcesAndMovement dt (gasLaws (environmentUpdate dt s)) /\
  mode s' = mode s /\ isRunning s' = isRunning s /\
  animation s' = animation s /\
  moles (balloon s') = moles (balloon s) /\
  maxRadius (balloon s') = maxRadius (balloon s) /\
  (Mode_eqb (mode s) MISSION && isRunning s = false ->
   forall dt', simulationLoop dt' s' = (s', result)).
Proof.
  intros s' result.
  destruct (simulationLoop_frame dt s) as (F1 & F2 & F3 & F4 & F5).
  split.
  { unfold result, s', simulationLoop, limits. cbn [fst snd].
    match goal with |- context [if ?c then _ else _] => destruct c end;
      reflexivity. }
  split; [reflexivity |].
  repeat (split; [assumption |]).
  intros H dt'. unfold s', result.
  rewrite simulationLoop_not_flying_again by assumption.
  destruct (simulationLoop dt s); reflexivity.
Qed.

Lemma burst_check_level_triggered_witness :
  simulationLoop (Num 0.1) (fst (simulationLoop (Num 0.1) Scenario.overfilled))
  = (fst (simulationLoop (Num 0.1) Scenario.overfilled),
     snd (simulationLoop (Num 0.1) Scenario.overfilled)).
Proof.
  apply (burst_check_level_triggered (Num 0.1) Scenario.overfilled).
  reflexivity.
Defined.

(** ** Gay-Lussac mode *)

Lemma gay_lussac_step (dt : num) (s : SimulationState) :
  mode s = GAY_LUSSAC -> simulationLoop dt s = (s, limits s).
Proof.
  intros Hm. rewrite simulationLoop_not_flying by (rewrite Hm; reflexivity).
  unfold gasLaws. rewrite Hm. reflexivity.
Qed.

Lemma writeParameter_frame (value : num) (s : SimulationState) :
  mode (writeParameter value s) = mode s /\
  isRunning (writeParameter value s) = isRunning s /\
  balloon (writeParameter value s) = balloon s /\
  animation (writeParameter value s) = animation s.
Proof.
  unfold writeParameter, gayLussacPressure.
  destruct (parameter (animation s)); try (repeat split; reflexivity).
  cbn. destruct (Mode_eqb (mode s) GAY_LUSSAC); repeat split; reflexivity.
Qed.

Lemma rampUpdate_frame (dt : num) (s : SimulationState) :
  mode (rampUpdate dt s) = mode s /\
  isRunning (rampUpdate dt s) = isRunning s /\
  balloon (rampUpdate dt s) = balloon s.
Proof.
  unfold rampUpdate. destruct (active (animation s)); [| repeat split; reflexivity].
  match goal with |- context [if ?c then _ else _] => destruct c end.
  - cbn [mode isRunning balloon active_ set_animation].
    match goal with |- context [writeParameter ?v (writeParameter ?w ?t)] =>
      destruct (writeParameter_frame v (writeParameter w t)) as (A1 & A2 & A3 & _);
      destruct (writeParameter_frame w t) as (B1 & B2 & B3 & _)
    end.
    rewrite A1, A2, A3, B1, B2, B3. repeat split; reflexivity.
  - match goal with |- context [writeParameter ?w ?t] =>
      destruct (writeParameter_frame w t) as (B1 & B2 & B3 & _)
    end.
    rewrite B1, B2, B3. repeat split; reflexivity.
Qed.

(** A frame in Gay-Lussac mode: the balloon is not written, and the report
    is the comparison of the radius and the limit it started with. *)
Lemma gay_lussac_frame (dt : num) (s : SimulationState) :
  mode s = GAY_LUSSAC ->
  mode (fst (frame dt s)) = GAY_LUSSAC /\
  balloon (fst (frame dt s)) = balloon s /\
  exploded (snd (frame dt s))
  = (radius (balloon s) >=? maxRadius (balloon s))%js.
Proof.
  intros Hm. destruct (rampUpdate_frame dt s) as (R1 & R2 & R3).
  unfold frame. rewrite gay_lussac_step by congruence.
  unfold limits. rewrite R3.
  destruct (radius (balloon s) >=? maxRadius (balloon s))%js; cbn;
    repeat split; congruence.
Qed.

Lemma gay_lussac_handle (i : Input) (s : SimulationState) :
  mode s = GAY_LUSSAC ->
  mode (fst (handle i s)) = GAY_LUSSAC /\
  balloon (fst (handle i s)) = balloon s /\
  Forall (fun b => b = (radius (balloon s) >=? maxRadius (balloon s))%js)
         (snd (handle i s)).
Proof.
  intros Hm. destruct i as [dt | v | v | inc | ]; cbn [handle].
  - destruct (gay_lussac_frame dt s Hm) as (F1 & F2 & F3).
    destruct (frame dt s) as [s' r]. cbn [fst snd] in *.
    repeat split; try assumption. constructor; [assumption | constructor].
  - unfold sliderTempInput. rewrite Hm. cbn. repeat split; try assumption.
    constructor.
  - unfold sliderPressureInput. rewrite Hm. cbn. repeat split; try assumption.
    constructor.
  - unfold startEdu. rewrite Hm. cbn. repeat split; try assumption.
    constructor.
  - cbn. repeat split; try assumption. constructor.
Qed.

Lemma writeParameter_gay_lussac (value : num) (s : SimulationState) :
  mode s = GAY_LUSSAC ->
  parameter (animation s) = ParamTemperature ->
  writeParameter value s =
  s ;> temperature_ value
    ;> pressure_ ((moles (balloon s) * Num 8.314 * value)
                  / constantVolume (balloon s))%js.
Proof.
  intros Hm Hp. unfold writeParameter. rewrite Hp.
  unfold gayLussacPressure.
  change (mode (s ;> temperature_ value)) with (mode s). rewrite Hm.
  reflexivity.
Qed.

(** The ramp of the temperature in Gay-Lussac mode leaves the pressure at
    moles R temperature / constantVolume. *)
Lemma gay_lussac_ramp_pressure (dt : num) (s : SimulationState) :
  mode s = GAY_LUSSAC ->
  active (animation s) = true ->
  parameter (animation s) = ParamTemperature ->
  let s' := rampUpdate dt s in
  pressure (env s') =
  ((moles (balloon s') * Num 8.314 * temperature (env s'))
   / constantVolume (balloon s'))%js.
Proof.
  intros Hm Ha Hp. unfold rampUpdate. rewrite Ha.
  set (s1 := s ;> elapsed_ (elapsed (animation s) + dt)%js).
  assert (Hm1 : mode s1 = GAY_LUSSAC) by exact Hm.
  assert (Hp1 : parameter (animation s1) = ParamTemperature) by exact Hp.
  cbn zeta.
  match goal with |- context [writeParameter ?v s1] =>
    rewrite (writeParameter_gay_lussac v s1 Hm1 Hp1); set (value := v)
  end.
  match goal with |- context [if ?c then _ else _] => destruct c end.
  - rewrite writeParameter_gay_lussac by assumption. reflexivity.
  - reflexivity.
Qed.

(** So the ratio of pressure and temperature after a ramp frame is
    moles R / constantVolume, whatever the temperature reached. *)
Lemma gay_lussac_ramp_ratio (dt : num) (s : SimulationState) (n c T : R) :
  mode s = GAY_LUSSAC ->
  active (animation s) = true ->
  parameter (animation s) = ParamTemperature ->
  moles (balloon s) = Num n ->
  constantVolume (balloon s) = Num c ->
  c <> 0 ->
  let s' := fst (frame dt s) in
  temperature (env s') = Num T -> T <> 0 ->
  (pressure (env s') / temperature (env s'))%js = Num (n * 8.314 / c) /\
  volume (balloon s') = volume (balloon s) /\
  radius (balloon s') = radius (balloon s).
Proof.
  intros Hm Ha Hp Hn Hc Hc0 s' HT HT0.
  destruct (rampUpdate_frame dt s) as (R1 & R2 & R3).
  pose proof (gay_lussac_ramp_pressure dt s Hm Ha Hp) as HP. cbn zeta in HP.
  assert (Es' : env s' = env (rampUpdate dt s) /\ balloon s' = balloon s).
  { unfold s', frame. rewrite gay_lussac_step by congruence.
    destruct (exploded (limits (rampUpdate dt s))); cbn; split; congruence. }
  destruct Es' as [Ee Eb]. rewrite Ee in HT |- *. rewrite Eb.
  rewrite HP, R3, Hn, Hc, HT. cbn [mul].
  rewrite !div_Num by assumption.
  split; [| split; reflexivity]. f_equal. field. split; assumption.
Qed.

Lemma rigid_state :
  let V := 4 / 3 * PI * (1.0 * 1.0 * 1.0) in
  Scenario.rigid =
  initialState ;> moles_ (Num (101325 * V / (8.314 * 293)))
               ;> volume_ (Num V) ;> radius_ (Num 1.0)
               ;> mode_ GAY_LUSSAC ;> isRunning_ false ;> active_ false
               ;> altitude_ (Num 0) ;> velocity_ (Num 0) ;> positionY_ (Num 0)
               ;> constantVolume_ (Num V).
Proof.
  intros V. unfold Scenario.rigid, Scenario.loaded, initSimulation.
  rewrite standard_fill. fold V.
  unfold modeClick, updateControlVisibility. cbn. reflexivity.
Qed.

(** C3, at the failing input: the application starts (101325 Pa, 293 K,
    radius 1.0), the Gay-Lussac button is clicked, the temperature slider
    moves to 400 K and a frame runs. Volume and radius are unchanged, but
    the pressure is still 101325 Pa: the ratio of pressure and temperature
    has dropped from 101325/293 to 101325/400, and the pressure is not
    moles R temperature / constantVolume, which the ramp would have
    written. *)
Theorem gay_lussac_slider_breaks_ratio :
  let s0 := Scenario.rigid in
  let s1 := fst (run [TemperatureSlider (Num 400); Tick (Num 0.1)] s0) in
  mode s1 = GAY_LUSSAC /\
  volume (balloon s1) = volume (balloon s0) /\
  radius (balloon s1) = radius (balloon s0) /\
  constantVolume (balloon s1) = volume (balloon s1) /\
  temperature (env s1) = Num 400 /\
  pressure (env s1) = Num 101325 /\
  (pressure (env s0) / temperature (env s0))%js = Num (101325 / 293) /\
  (pressure (env s1) / temperature (env s1))%js = Num (101325 / 400) /\
  (pressure (env s1) / temperature (env s1))%js
  <> (pressure (env s0) / temperature (env s0))%js /\
  ((moles (balloon s1) * Num 8.314 * temperature (env s1))
   / constantVolume (balloon s1))%js = Num (101325 * 400 / 293) /\
  pressure (env s1)
  <> ((moles (balloon s1) * Num 8.314 * temperature (env s1))
      / constantVolume (balloon s1))%js.
Proof.
  intros s0 s1.
  set (V := 4 / 3 * PI * (1.0 * 1.0 * 1.0)).
  set (n := 101325 * V / (8.314 * 293)).
  pose proof PI_bounds as Hpi.
  assert (HV : 0 < V) by (unfold V; lra).
  assert (E0 : s0 =
    initialState ;> moles_ (Num n) ;> volume_ (Num V) ;> radius_ (Num 1.0)
                 ;> mode_ GAY_LUSSAC ;> isRunning_ false ;> active_ false
                 ;> altitude_ (Num 0) ;> velocity_ (Num 0) ;> positionY_ (Num 0)
                 ;> constantVolume_ (Num V))
    by exact rigid_state.
  assert (E : s1 = s0 ;> temperature_ (Num 400)).
  { unfold s1. cbn [run handle app]. rewrite E0.
    match goal with |- context [sliderTempInput ?v ?t] =>
      change (sliderTempInput v t) with (t ;> temperature_ v)
    end.
    unfold frame.
    match goal with |- context [rampUpdate ?d ?t] =>
      change (rampUpdate d t) with t
    end.
    rewrite gay_lussac_step by reflexivity.
    unfold limits. cbn -[ge].
    replace (Num 1.0 >=? Num 5.0)%js with false
      by (symmetry; apply ge_Num_false; lra).
    reflexivity. }
  assert (En : n * 8.314 * 400 / V = 101325 * 400 / 293)
    by (unfold n; field; lra).
  rewrite E, E0. cbn -[div]. rewrite !div_Num by lra. cbn [mul]. rewrite En.
  repeat split; try reflexivity.
  - intros H. injection H as H. lra.
  - intros H. injection H as H. lra.
Qed.

(** C10: in Gay-Lussac mode, through any sequence of frames, moves of the
    temperature and pressure sliders and ramps, every frame's burst report
    is the comparison of the radius and the limit the sequence started
    with: a burst is reported only if the radius was already at the limit,
    and no ramp produces a new one. *)
Theorem gay_lussac_no_new_burst (inputs : list Input) (s : SimulationState) :
  mode s = GAY_LUSSAC ->
  let s' := fst (run inputs s) in
  let rs := snd (run inputs s) in
  mode s' = GAY_LUSSAC /\
  radius (balloon s') = radius (balloon s) /\
  maxRadius (balloon s') = maxRadius (balloon s) /\
  Forall (fun b => b = (radius (balloon s) >=? maxRadius (balloon s))%js) rs /\
  ((radius (balloon s) >=? maxRadius (balloon s))%js = false ->
   Forall (fun b => b = false) rs).
Proof.
  intros Hm. cbn zeta.
  assert (Main : mode (fst (run inputs s)) = GAY_LUSSAC /\
                 balloon (fst (run inputs s)) = balloon s /\
                 Forall (fun b => b = (radius (balloon s) >=? maxRadius (balloon s))%js)
                        (snd (run inputs s))).
  { revert s Hm. induction inputs as [| i rest IH]; intros s Hm.
    - cbn. repeat split; [assumption | constructor].
    - cbn [run].
      destruct (gay_lussac_handle i s Hm) as (H1 & H2 & H3).
      destruct (handle i s) as [s1 r]. cbn [fst snd] in H1, H2, H3.
      destruct (IH s1 H1) as (I1 & I2 & I3).
      destruct (run rest s1) as [s2 rs]. cbn [fst snd] in *.
      rewrite H2 in I2, I3. repeat split; try assumption.
      apply Forall_app. split; assumption. }
  destruct Main as (M1 & M2 & M3). rewrite M2.
  repeat split; try assumption.
  intros Hlow. rewrite Hlow in M3. exact M3.
Qed.

Lemma gay_lussac_no_new_burst_witness :
  Forall (fun b => b = false)
         (snd (run [StartEdu true; Tick (Num 0.1);
                    TemperatureSlider (Num 400); Tick (Num 0.1)]
                   Scenario.rigid)).
Proof.
  apply (gay_lussac_no_new_burst
           [StartEdu true; Tick (Num 0.1); TemperatureSlider (Num 400);
            Tick (Num 0.1)] Scenario.rigid eq_refl).
  apply ge_Num_false. lra.
Defined.

(** ** Further properties of the gas laws *)

(** A step outside Gay-Lussac mode and outside a running mission, at a
    finite positive pressure: the environment is not written and the volume
    is moles R T / P. *)
Lemma ideal_step (dt : num) (s : SimulationState) (n T p : R) :
  mode s <> GAY_LUSSAC ->
  Mode_eqb (mode s) MISSION && isRunning s = false ->
  moles (balloon s) = Num n ->
  temperature (env s) = Num T ->
  pressure (env s) = Num p ->
  0 < p ->
  let s' := fst (simulationLoop dt s) in
  env s' = env s /\
  moles (balloon s') = Num n /\
  volume (balloon s') = Num (n * 8.314 * T / p).
Proof.
  intros Hm Hfly Hn HT Hp Hpos s'. unfold s'.
  rewrite simulationLoop_not_flying by assumption.
  rewrite gasLaws_not_GayLussac by assumption.
  cbn -[calculateVolume pow div mul].
  rewrite Hn, HT, Hp, calculateVolume_Num by assumption.
  repeat split; reflexivity.
Qed.

(** X1: in Charles mode, two states produced by steps with the same moles
    and the same positive pressure, at temperatures that are not 0, have the
    same quotient of volume and temperature, namely moles R / pressure. *)
Theorem charles_ratio_invariant
  (dt1 dt2 : num) (s1 s2 : SimulationState) (n p T1 T2 : R) :
  mode s1 = CHARLES -> mode s2 = CHARLES ->
  moles (balloon s1) = Num n -> moles (balloon s2) = Num n ->
  pressure (env s1) = Num p -> pressure (env s2) = Num p ->
  temperature (env s1) = Num T1 -> temperature (env s2) = Num T2 ->
  0 < p -> T1 <> 0 -> T2 <> 0 ->
  let s1' := fst (simulationLoop dt1 s1) in
  let s2' := fst (simulationLoop dt2 s2) in
  (volume (balloon s1') / temperature (env s1'))%js = Num (n * 8.314 / p) /\
  (volume (balloon s2') / temperature (env s2'))%js = Num (n * 8.314 / p).
Proof.
  intros Hm1 Hm2 Hn1 Hn2 Hp1 Hp2 HT1 HT2 Hpos H1 H2 s1' s2'.
  destruct (ideal_step dt1 s1 n T1 p) as (E1 & _ & V1);
    try assumption; try (rewrite Hm1; (discriminate || reflexivity)).
  destruct (ideal_step dt2 s2 n T2 p) as (E2 & _ & V2);
    try assumption; try (rewrite Hm2; (discriminate || reflexivity)).
  fold s1' in E1, V1. fold s2' in E2, V2.
  rewrite E1, E2, V1, V2, HT1, HT2. rewrite !div_Num by assumption.
  split; f_equal; field; lra.
Qed.

Lemma charles_ratio_invariant_witness :
  let s1 := initialState ;> mode_ CHARLES ;> moles_ (Num 100) in
  let s2 := s1 ;> temperature_ (Num 500) in
  (volume (balloon (fst (simulationLoop (Num 0.1) s1)))
   / temperature (env (fst (simulationLoop (Num 0.1) s1))))%js
  = Num (100 * 8.314 / 101325) /\
  (volume (balloon (fst (simulationLoop (Num 0.1) s2)))
   / temperature (env (fst (simulationLoop (Num 0.1) s2))))%js
  = Num (100 * 8.314 / 101325).
Proof.
  intros s1 s2.
  apply (charles_ratio_invariant (Num 0.1) (Num 0.1) s1 s2 100 101325 293 500);
    try reflexivity; lra.
Defined.

Lemma Rpower_cbrt_mult (x y : R) :
  0 < x -> 0 < y ->
  Rpower (x * y) (1 / 3) = Rpower x (1 / 3) * Rpower y (1 / 3).
Proof.
  intros Hx Hy. unfold Rpower. rewrite ln_mult by assumption.
  rewrite Rmult_plus_distr_l. apply exp_plus.
Qed.

(** The fill at the sliders followed by a step at the environment. *)
Lemma fill_step_law
  (P T r P' T' : R) (ui : UI) (s : SimulationState) (dt : num) :
  0 < P -> 0 < T -> 0 < r -> 0 < P' -> 0 < T' ->
  sliderPressure ui = Num P ->
  sliderTemp ui = Num T ->
  sliderInitialRadius ui = Num r ->
  mode s <> GAY_LUSSAC ->
  Mode_eqb (mode s) MISSION && isRunning s = false ->
  pressure (env s) = Num P' ->
  temperature (env s) = Num T' ->
  let V := 4 / 3 * PI * (r * r * r) in
  let stepped := fst (simulationLoop dt (recalculateMoles ui s)) in
  volume (balloon stepped) = Num (V * (P * T' / (P' * T))) /\
  radius (balloon stepped) = Num (r * Rpower (P * T' / (P' * T)) (1 / 3)) /\
  ((pressure (env stepped) * volume (balloon stepped))
   / temperature (env stepped))%js = Num (P * V / T).
Proof.
  intros HP HT Hr HP' HT' HuP HuT Hur Hm Hfly HsP HsT V stepped.
  pose proof PI_pos as Hpi.
  assert (HV : 0 < V) by (apply sphere_pos; assumption).
  set (k := P * T' / (P' * T)).
  assert (Hk : 0 < k).
  { unfold k. apply Rdiv_lt_0_compat; apply Rmult_lt_0_compat; assumption. }
  assert (Hfill : recalculateMoles ui s =
    s ;> moles_ (Num (P * V / (8.314 * T))) ;> volume_ (Num V) ;> radius_ (Num r))
    by (apply recalculateMoles_Num; try assumption; lra).
  assert (HV' : P * V / (8.314 * T) * 8.314 * T' / P' = V * k)
    by (unfold k; field; lra).
  assert (HVk : 0 < V * k) by (apply Rmult_lt_0_compat; assumption).
  assert (Hstep : stepped =
    recalculateMoles ui s
      ;> volume_ (Num (P * V / (8.314 * T) * 8.314 * T' / P'))
      ;> radius_ (Num (Rpower
           (3 * (P * V / (8.314 * T) * 8.314 * T' / P') / (4 * PI)) (1 / 3)))).
  { apply free_step_Num; rewrite ?Hfill; cbn; try assumption; try reflexivity.
    rewrite HV'. assumption. }
  rewrite Hstep, Hfill. cbn -[Rpower div]. rewrite HsP, HsT, HV'.
  cbn [mul]. rewrite div_Num by lra.
  repeat split; f_equal.
  - replace (3 * (V * k) / (4 * PI)) with ((r * r * r) * k)
      by (unfold V; field; lra).
    rewrite Rpower_cbrt_mult by (try apply cube_pos; assumption).
    rewrite cbrt_cube by assumption. reflexivity.
  - unfold k. field. lra.
Qed.

(** X2: the fill followed by a step is the combined gas law. After a fill
    at slider pressure P, temperature T and radius r, a step outside
    Gay-Lussac mode and outside a running mission, at the pressure P' and
    temperature T' of the environment, gives the volume V P T' / (P' T) and
    the radius r cbrt (P T' / (P' T)), so that P' V' / T' = P V / T. *)
Theorem fill_step_combined_gas_law
  (P T r P' T' : R) (ui : UI) (s : SimulationState) (dt : num) :
  0 < P -> 0 < T -> 0 < r -> 0 < P' -> 0 < T' ->
  sliderPressure ui = Num P ->
  sliderTemp ui = Num T ->
  sliderInitialRadius ui = Num r ->
  mode s <> GAY_LUSSAC ->
  Mode_eqb (mode s) MISSION && isRunning s = false ->
  pressure (env s) = Num P' ->
  temperature (env s) = Num T' ->
  let V := 4 / 3 * PI * (r * r * r) in
  let stepped := fst (simulationLoop dt (recalculateMoles ui s)) in
  volume (balloon stepped) = Num (V * (P * T' / (P' * T))) /\
  radius (balloon stepped) = Num (r * Rpower (P * T' / (P' * T)) (1 / 3)) /\
  ((pressure (env stepped) * volume (balloon stepped))
   / temperature (env stepped))%js = Num (P * V / T).
Proof.
  intros HP HT Hr HP' HT' HuP HuT Hur Hm Hfly HsP HsT.
  now apply fill_step_law.
Qed.

Lemma fill_step_combined_gas_law_witness :
  let s := initialState ;> mode_ BOYLE ;> pressure_ (Num 200000) in
  let stepped :=
    fst (simulationLoop (Num 0.1) (recalculateMoles Scenario.standard_ui s)) in
  volume (balloon stepped)
  = Num (4 / 3 * PI * (1.0 * 1.0 * 1.0) * (101325 * 293 / (200000 * 293))).
Proof.
  intros s stepped.
  apply (fill_step_combined_gas_law 101325 293 1.0 200000 293
           Scenario.standard_ui s (Num 0.1));
    try reflexivity; try lra. discriminate.
Defined.

Lemma Rsgn_pos (x : R) : 0 < x -> Rsgn x = Gt.
Proof. intros H. unfold Rsgn. now apply Rcmp_Gt. Qed.

Lemma Rsgn_zero (x : R) : x = 0 -> Rsgn x = Eq.
Proof. intros H. unfold Rsgn. now apply Rcmp_Eq. Qed.

Lemma Rsgn_neg (x : R) : x < 0 -> Rsgn x = Lt.
Proof. intros H. unfold Rsgn. now apply Rcmp_Lt. Qed.

(** The radius of an infinite volume is infinite. *)
Lemma sphere_radius_PosInf :
  pow ((Num 3 * PosInf) / (Num 4 * Math_PI))%js (Num 1 / Num 3)%js = PosInf.
Proof.
  pose proof PI_pos as Hpi. unfold Math_PI.
  rewrite div_Num by lra. cbn [mul sgn].
  rewrite (Rsgn_pos 3) by lra. cbn [cmul inf_of div sgn].
  rewrite (Rsgn_pos (4 * PI)) by lra. cbn [inf_of pow].
  rewrite (Rsgn_pos (1 / 3)) by lra. reflexivity.
Qed.

Lemma ge_PosInf (m : num) : m <> NaN -> (PosInf >=? m)%js = true.
Proof. intros H. destruct m; try reflexivity. contradiction. Qed.

(** X3: vacuum. At a finite pressure that is 0 or negative, a step outside
    Gay-Lussac mode and outside a running mission sets the volume and the
    radius to +Infinity, whatever the moles and the temperature, and reports
    a burst for every burst limit that is a number. *)
Theorem vacuum_step_bursts (dt : num) (s : SimulationState) (p : R) :
  mode s <> GAY_LUSSAC ->
  Mode_eqb (mode s) MISSION && isRunning s = false ->
  pressure (env s) = Num p ->
  p <= 0 ->
  let s' := fst (simulationLoop dt s) in
  volume (balloon s') = PosInf /\
  radius (balloon s') = PosInf /\
  (maxRadius (balloon s) <> NaN ->
   exploded (snd (simulationLoop dt s)) = true).
Proof.
  intros Hm Hfly Hp Hle s'.
  assert (E : gasLaws s = s ;> volume_ PosInf ;> radius_ PosInf).
  { rewrite gasLaws_not_GayLussac by assumption. cbn zeta.
    unfold calculateVolume. rewrite Hp.
    replace (Num p <=? Num 0)%js with true
      by (symmetry; apply le_Num; assumption).
    rewrite sphere_radius_PosInf. reflexivity. }
  unfold s'. rewrite simulationLoop_not_flying by assumption.
  rewrite E. cbn [fst snd]. repeat split.
  intros Hmax. unfold limits. cbn -[ge]. rewrite ge_PosInf by assumption.
  reflexivity.
Qed.

Lemma vacuum_step_bursts_witness :
  let s := initialState ;> pressure_ (Num 0) in
  radius (balloon (fst (simulationLoop (Num 0.1) s))) = PosInf /\
  exploded (snd (simulationLoop (Num 0.1) s)) = true.
Proof.
  intros s.
  destruct (vacuum_step_bursts (Num 0.1) s 0) as (_ & Hr & He);
    try reflexivity; try lra; try discriminate.
  split; [exact Hr |]. apply He. discriminate.
Defined.

(** ** Further properties of the atmosphere model *)

Lemma base_at_antitone (h1 h2 : R) :
  h1 <= h2 -> Spec.base_at h2 <= Spec.base_at h1.
Proof. intros H. unfold Spec.base_at. lra. Qed.

Lemma pressure_at_antitone (h1 h2 : R) :
  h1 <= h2 -> Spec.pressure_at h2 <= Spec.pressure_at h1.
Proof.
  intros H. pose proof (base_at_antitone h1 h2 H) as Hb.
  pose proof exponent_pos as He.
  unfold Spec.pressure_at.
  destruct (Rlt_dec 0 (Spec.base_at h2)) as [H2 | H2].
  - destruct (Rlt_dec 0 (Spec.base_at h1)) as [H1 | H1]; [| lra].
    apply Rmult_le_compat_l; [lra |].
    apply Rle_Rpower_l; lra.
  - fold (Spec.pressure_at h1). apply pressure_at_nonneg.
Qed.

Lemma temperature_at_antitone (h1 h2 : R) :
  h1 <= h2 -> Spec.temperature_at h2 <= Spec.temperature_at h1.
Proof.
  intros H. unfold Spec.temperature_at. apply Rle_max_compat_r. lra.
Qed.

(** X4: the atmosphere never gets denser or warmer with height: for finite
    altitudes h1 <= h2 the pressure and the temperature at h2 are finite and
    at most those at h1. *)
Theorem getAtmosphere_antitone (h1 h2 : R) :
  h1 <= h2 ->
  exists p1 t1 p2 t2,
    getAtmosphere (Num h1) = {| atm_pressure := Num p1; atm_temperature := Num t1 |} /\
    getAtmosphere (Num h2) = {| atm_pressure := Num p2; atm_temperature := Num t2 |} /\
    p2 <= p1 /\ t2 <= t1.
Proof.
  intros H.
  exists (Spec.pressure_at h1), (Spec.temperature_at h1),
         (Spec.pressure_at h2), (Spec.temperature_at h2).
  pose proof (atm_pressure_Num h1) as P1. pose proof (atm_temperature_Num h1) as T1.
  pose proof (atm_pressure_Num h2) as P2. pose proof (atm_temperature_Num h2) as T2.
  destruct (getAtmosphere (Num h1)) as [a1 b1].
  destruct (getAtmosphere (Num h2)) as [a2 b2].
  cbn in P1, T1, P2, T2. subst.
  repeat split; [now apply pressure_at_antitone | now apply temperature_at_antitone].
Qed.

Lemma getAtmosphere_antitone_witness :
  exists p1 t1 p2 t2,
    getAtmosphere (Num 0) = {| atm_pressure := Num p1; atm_temperature := Num t1 |} /\
    getAtmosphere (Num 11000) = {| atm_pressure := Num p2; atm_temperature := Num t2 |} /\
    p2 <= p1 /\ t2 <= t1.
Proof.
  apply (getAtmosphere_antitone 0 11000). lra.
Defined.

(** X5: the range of the atmosphere model. At every finite altitude the
    pressure is a number that is at least 0 and the temperature a number
    that is at least 1; at or above the ground they are at most the
    sea-level values 101325 and 293; from 293 / 0.0065 m up the pressure is
    0 and the temperature is 1. *)
Theorem getAtmosphere_range (h : R) :
  exists p t,
    getAtmosphere (Num h) = {| atm_pressure := Num p; atm_temperature := Num t |} /\
    0 <= p /\ 1 <= t /\
    (0 <= h -> p <= 101325 /\ t <= 293) /\
    (293 / 0.0065 <= h -> p = 0 /\ t = 1).
Proof.
  exists (Spec.pressure_at h), (Spec.temperature_at h).
  pose proof (atm_pressure_Num h) as P. pose proof (atm_temperature_Num h) as T.
  destruct (getAtmosphere (Num h)) as [a b]. cbn in P, T. subst.
  split; [reflexivity |].
  split; [apply pressure_at_nonneg |].
  split; [apply temperature_at_ge_1 |].
  split.
  - intros Hh. split.
    + rewrite <- pressure_at_0. now apply pressure_at_antitone.
    + rewrite <- temperature_at_0. now apply temperature_at_antitone.
  - intros Hh.
    assert (Hh' : 293 <= 0.0065 * h) by lra.
    split.
    + unfold Spec.pressure_at, Spec.base_at.
      destruct (Rlt_dec 0 (1 - 0.0065 * h / 293)) as [Hb | Hb]; [lra | reflexivity].
    + unfold Spec.temperature_at. apply Rmax_right. lra.
Qed.

(** X6: the atmosphere at the altitudes that are not finite. At NaN the
    temperature is NaN (the floor of 1 does not apply) and the pressure is
    0; at +Infinity the temperature is the floor 1 and the pressure 0; at
    -Infinity both are +Infinity. *)
Theorem getAtmosphere_not_finite :
  getAtmosphere NaN = {| atm_pressure := Num 0; atm_temperature := NaN |} /\
  getAtmosphere PosInf = {| atm_pressure := Num 0; atm_temperature := Num 1 |} /\
  getAtmosphere NegInf = {| atm_pressure := PosInf; atm_temperature := PosInf |}.
Proof.
  pose proof exponent_pos as He. unfold Spec.exponent in He.
  assert (S1 : Rsgn 0.0065 = Gt) by (apply Rsgn_pos; lra).
  assert (S2 : Rsgn 293 = Gt) by (apply Rsgn_pos; lra).
  assert (S3 : Rsgn (9.81 * 0.0289644 / (8.314 * 0.0065)) = Gt)
    by (apply Rsgn_pos; exact He).
  assert (S4 : Rsgn 101325 = Gt) by (apply Rsgn_pos; lra).
  assert (S5 : Rsgn (8.314 * 0.0065) = Gt) by (apply Rsgn_pos; lra).
  split; [| split].
  - reflexivity.
  - unfold getAtmosphere, R_gas. cbn [mul sgn]. rewrite S1.
    cbn [cmul inf_of sub neg add div sgn lt gt cmp]. rewrite S2. reflexivity.
  - unfold getAtmosphere, R_gas. cbn [mul sgn]. rewrite S1.
    cbn [cmul inf_of sub neg add div sgn lt gt cmp]. rewrite S2.
    cbn [inf_of sub neg add gt cmp]. rewrite S5.
    cbn [pow]. rewrite S3. cbn [mul sgn]. rewrite S4. reflexivity.
Qed.

(** ** Further properties of the mission *)

(** Part 1 of the loop in flight, from a finite altitude and velocity. *)
Lemma environmentUpdate_flying_state (a v d : R) (s : SimulationState) :
  mode s = MISSION -> isRunning s = true ->
  altitude (env s) = Num a ->
  velocity (balloon s) = Num v ->
  let h := a + v * d in
  environmentUpdate (Num d) s =
  s ;> altitude_ (Num h) ;> positionY_ (Num h)
    ;> pressure_ (Num (Spec.pressure_at h))
    ;> temperature_ (Num (Spec.temperature_at h)).
Proof.
  intros Hm Hr Ha Hv h. unfold environmentUpdate.
  rewrite (proj2 (flying_iff s)) by (split; assumption).
  cbn -[getAtmosphere]. rewrite Ha, Hv. cbn [add mul]. fold h.
  rewrite atm_pressure_Num, atm_temperature_Num. reflexivity.
Qed.

Lemma forcesAndMovement_env (dt : num) (s : SimulationState) :
  pressure (env (forcesAndMovement dt s)) = pressure (env s) /\
  temperature (env (forcesAndMovement dt s)) = temperature (env s) /\
  gravity (env (forcesAndMovement dt s)) = gravity (env s).
Proof.
  unfold forcesAndMovement.
  destruct (Mode_eqb (mode s) MISSION && isRunning s);
    [| repeat split; reflexivity].
  match goal with |- context [if ?c then _ else _] => destruct c end;
    repeat split; reflexivity.
Qed.

Lemma pressure_at_pos (h : R) : 0 < Spec.base_at h -> 0 < Spec.pressure_at h.
Proof.
  intros H. unfold Spec.pressure_at.
  destruct (Rlt_dec 0 (Spec.base_at h)); [| contradiction].
  apply Rmult_lt_0_compat; [lra | apply exp_pos].
Qed.

Lemma pressure_at_vacuum (h : R) : Spec.base_at h <= 0 -> Spec.pressure_at h = 0.
Proof.
  intros H. unfold Spec.pressure_at.
  destruct (Rlt_dec 0 (Spec.base_at h)); [lra | reflexivity].
Qed.

(** X7: the lift does not depend on the altitude. In a flying step that
    stays below the ceiling of the atmosphere model (positive base term),
    the lift computed by the step is moles M_air g and the weight is
    (massPayload + massBalloon + moles M_gas) g, whatever the pressure and
    the temperature of the altitude reached. *)
Theorem flying_lift_is_constant
  (s : SimulationState) (a v d n g mp mb : R) :
  mode s = MISSION -> isRunning s = true ->
  altitude (env s) = Num a ->
  velocity (balloon s) = Num v ->
  moles (balloon s) = Num n ->
  gravity (env s) = Num g ->
  massPayload (balloon s) = Num mp ->
  massBalloon (balloon s) = Num mb ->
  0 < Spec.base_at (a + v * d) ->
  let s1 := gasLaws (environmentUpdate (Num d) s) in
  liftForce s1 = Num (n * 0.0289644 * g) /\
  exists mg,
    molarMass (GAS_PROPERTIES (gasType (balloon s))) = Num mg /\
    gravityForce s1 = Num ((mp + mb + n * mg) * g) /\
    (liftForce s1 - gravityForce s1)%js
    = Num ((n * (0.0289644 - mg) - mp - mb) * g).
Proof.
  intros Hm Hr Ha Hv Hn Hg Hmp Hmb Hbase s1.
  set (h := a + v * d) in *.
  pose proof (pressure_at_pos h Hbase) as Hp.
  pose proof (temperature_at_ge_1 h) as HT.
  set (p := Spec.pressure_at h) in *. set (T := Spec.temperature_at h) in *.
  assert (E1 : environmentUpdate (Num d) s =
    s ;> altitude_ (Num h) ;> positionY_ (Num h)
      ;> pressure_ (Num p) ;> temperature_ (Num T))
    by (apply environmentUpdate_flying_state; assumption).
  assert (Es1 : s1 =
    s ;> altitude_ (Num h) ;> positionY_ (Num h)
      ;> pressure_ (Num p) ;> temperature_ (Num T)
      ;> volume_ (Num (n * 8.314 * T / p))
      ;> radius_ (pow ((Num 3 * Num (n * 8.314 * T / p)) / (Num 4 * Math_PI))%js
                      (Num 1 / Num 3)%js)).
  { unfold s1. rewrite E1.
    rewrite gasLaws_not_GayLussac by (cbn; rewrite Hm; discriminate).
    cbn -[calculateVolume pow div mul].
    rewrite Hn, calculateVolume_Num by assumption. reflexivity. }
  assert (EL : liftForce s1 = Num (p * 0.0289644 / (8.314 * T) * (n * 8.314 * T / p) * g)).
  { apply (liftForce_Num s1 p T g (n * 8.314 * T / p));
      rewrite ?Es1; try reflexivity; try assumption. lra. }
  destruct (molarMass_Num (gasType (balloon s))) as (mg & Emg & Hmg).
  assert (EW : gravityForce s1 = Num ((mp + mb + n * mg) * g)).
  { unfold gravityForce, totalMass, massGas. rewrite Es1.
    cbn -[GAS_PROPERTIES]. rewrite Hmp, Hmb, Hn, Hg, Emg. reflexivity. }
  assert (HL : p * 0.0289644 / (8.314 * T) * (n * 8.314 * T / p) * g
               = n * 0.0289644 * g) by (field; lra).
  rewrite HL in EL. split; [exact EL |].
  exists mg. split; [exact Emg |]. split; [exact EW |].
  rewrite EL, EW. cbn [sub add neg]. f_equal. ring.
Qed.

Lemma flying_lift_is_constant_witness :
  let s := Scenario.climbing ;> moles_ (Num 174) ;> altitude_ (Num 5000) in
  liftForce (gasLaws (environmentUpdate (Num 0.1) s))
  = Num (174 * 0.0289644 * 9.81).
Proof.
  intros s.
  apply (flying_lift_is_constant s 5000 1 0.1 174 9.81 0.5 0.2);
    try reflexivity.
  unfold Spec.base_at. lra.
Defined.

(** X8: the drag opposes the motion. On a state whose pressure, temperature,
    radius and velocity are finite, with a pressure that is not negative and
    a positive temperature, the drag is a number of the sign opposite to the
    velocity, 0 at rest, of size 0.5 rhoAir v^2 Cd pi r^2. *)
Theorem dragForce_opposes_velocity (s : SimulationState) (p T r v : R) :
  pressure (env s) = Num p ->
  temperature (env s) = Num T ->
  radius (balloon s) = Num r ->
  velocity (balloon s) = Num v ->
  0 <= p -> 0 < T ->
  exists D,
    dragForce s = Num D /\
    D * v <= 0 /\
    (v = 0 -> D = 0) /\
    Rabs D = 0.5 * (p * 0.0289644 / (8.314 * T)) * (v * v) * 0.47 * (PI * r * r).
Proof.
  intros Hp HT Hr Hv Hp0 HT0.
  set (rho := p * 0.0289644 / (8.314 * T)).
  assert (Hrho : 0 <= rho).
  { unfold rho. apply Rmult_le_pos; [lra |].
    left. apply Rinv_0_lt_compat. lra. }
  set (A := PI * r * r).
  assert (HA : 0 <= A).
  { unfold A. rewrite Rmult_assoc. apply Rmult_le_pos; [left; apply PI_pos |].
    apply Rle_0_sqr. }
  set (c := 0.5 * rho * 0.47 * A).
  assert (Hc : 0 <= c).
  { unfold c. apply Rmult_le_pos; [lra | assumption]. }
  assert (Hv2 : 0 <= v * v) by apply Rle_0_sqr.
  assert (Hcv : 0 <= c * (v * v)) by (apply Rmult_le_pos; assumption).
  assert (ED : forall k, sign (Num v) = Num k ->
               dragForce s = Num (- k * 0.5 * rho * (v * v) * 0.47 * A)).
  { intros k Hk. unfold dragForce, Cd, Math_PI.
    rewrite Hv, Hr, (rhoAir_Num s p T Hp HT HT0), Hk. reflexivity. }
  pose proof (Rcmp_spec v 0) as Hs.
  destruct (Rcmp v 0) eqn:Ecmp.
  - exists (- 0 * 0.5 * rho * (v * v) * 0.47 * A).
    split; [apply ED; unfold sign, sgn, Rsgn; now rewrite Ecmp |].
    subst v. replace (- 0 * 0.5 * rho * (0 * 0) * 0.47 * A) with 0 by ring.
    rewrite Rabs_R0. fold rho. repeat split; lra.
  - exists (- (-1) * 0.5 * rho * (v * v) * 0.47 * A).
    split; [apply ED; unfold sign, sgn, Rsgn; now rewrite Ecmp |].
    replace (- (-1) * 0.5 * rho * (v * v) * 0.47 * A) with (c * (v * v))
      by (unfold c; ring).
    split; [| split; [lra |]].
    + assert (0 <= c * (v * v) * (- v)) by (apply Rmult_le_pos; lra). lra.
    + rewrite Rabs_pos_eq by assumption. unfold c, rho, A. ring.
  - exists (- 1 * 0.5 * rho * (v * v) * 0.47 * A).
    split; [apply ED; unfold sign, sgn, Rsgn; now rewrite Ecmp |].
    replace (- 1 * 0.5 * rho * (v * v) * 0.47 * A) with (- (c * (v * v)))
      by (unfold c; ring).
    split; [| split; [lra |]].
    + assert (0 <= c * (v * v) * v) by (apply Rmult_le_pos; lra). lra.
    + rewrite Rabs_Ropp, Rabs_pos_eq by assumption. unfold c, rho, A. ring.
Qed.

Lemma dragForce_opposes_velocity_witness :
  exists D,
    dragForce Scenario.climbing = Num D /\
    D * 1 <= 0 /\
    (1 = 0 -> D = 0) /\
    Rabs D = 0.5 * (101325 * 0.0289644 / (8.314 * 293)) * (1 * 1) * 0.47
             * (PI * 1.0 * 1.0).
Proof.
  apply (dragForce_opposes_velocity Scenario.climbing 101325 293 1.0 1);
    try reflexivity; lra.
Defined.

Lemma pressure_at_below_ground (h : R) : h < 0 -> 101325 < Spec.pressure_at h.
Proof.
  intros Hh. pose proof exponent_pos as He.
  assert (Hb : 1 < Spec.base_at h) by (unfold Spec.base_at; lra).
  unfold Spec.pressure_at.
  destruct (Rlt_dec 0 (Spec.base_at h)) as [_ | Hn]; [| lra].
  assert (1 < Rpower (Spec.base_at h) Spec.exponent).
  { rewrite <- (Rpower_one_base Spec.exponent) at 1.
    apply Rlt_Rpower_l; lra. }
  lra.
Qed.

(** X9: a flying step from a finite altitude a and velocity v moves to
    h = a + v dt with the velocity it started with, takes the pressure and
    the temperature of the atmosphere at h, and then stops at the floor:
    the altitude it leaves is max h 0, positionY is equal to it, and after a
    floor stop the environment is still that of h below the ground, with a
    pressure above the sea-level 101325. *)
Theorem flying_step_environment (s : SimulationState) (a v d : R) :
  mode s = MISSION -> isRunning s = true ->
  altitude (env s) = Num a ->
  velocity (balloon s) = Num v ->
  let h := a + v * d in
  let s' := fst (simulationLoop (Num d) s) in
  altitude (env s') = Num (Rmax h 0) /\
  positionY (balloon s') = altitude (env s') /\
  pressure (env s') = atm_pressure (getAtmosphere (Num h)) /\
  temperature (env s') = atm_temperature (getAtmosphere (Num h)) /\
  (h < 0 -> exists p, pressure (env s') = Num p /\ 101325 < p).
Proof.
  intros Hm Hr Ha Hv h s'.
  pose proof (environmentUpdate_flying_state a v d s Hm Hr Ha Hv) as E1.
  fold h in E1. cbn zeta in E1.
  set (s1 := gasLaws (environmentUpdate (Num d) s)).
  assert (Es' : s' = forcesAndMovement (Num d) s1) by reflexivity.
  destruct (gasLaws_frame (environmentUpdate (Num d) s))
    as (Gm & Gr & Ge & _ & _ & _ & Gy & _).
  fold s1 in Gm, Gr, Ge, Gy.
  assert (Hm1 : mode s1 = MISSION) by (rewrite Gm, E1; exact Hm).
  assert (Hr1 : isRunning s1 = true) by (rewrite Gr, E1; exact Hr).
  assert (Ha1 : altitude (env s1) = Num h) by (rewrite Ge, E1; reflexivity).
  assert (Hy1 : positionY (balloon s1) = Num h) by (rewrite Gy, E1; reflexivity).
  assert (Hp1 : pressure (env s1) = Num (Spec.pressure_at h))
    by (rewrite Ge, E1; reflexivity).
  assert (HT1 : temperature (env s1) = Num (Spec.temperature_at h))
    by (rewrite Ge, E1; reflexivity).
  destruct (forcesAndMovement_env (Num d) s1) as (Fp & FT & _).
  rewrite <- Es' in Fp, FT.
  assert (Halt : altitude (env s') = Num (Rmax h 0)
                 /\ positionY (balloon s') = altitude (env s')).
  { rewrite Es'. unfold forcesAndMovement.
    rewrite (proj2 (flying_iff s1)) by (split; assumption).
    cbn -[liftForce gravityForce dragForce totalMass div add sub mul lt].
    rewrite Ha1. destruct (Rlt_dec h 0) as [Hneg | Hpos].
    - replace (Num h <? Num 0)%js with true
        by (symmetry; apply lt_Num; assumption).
      cbn. rewrite Rmax_right by lra. split; reflexivity.
    - replace (Num h <? Num 0)%js with false
        by (symmetry; apply lt_Num_false; lra).
      cbn -[liftForce gravityForce dragForce totalMass div add sub mul].
      rewrite Ha1, Hy1, Rmax_left by lra. split; reflexivity. }
  destruct Halt as [Halt Hpos].
  rewrite atm_pressure_Num, atm_temperature_Num, Fp, FT, Hp1, HT1.
  repeat split; try assumption.
  intros Hneg. exists (Spec.pressure_at h).
  split; [reflexivity | now apply pressure_at_below_ground].
Qed.

Lemma flying_step_environment_witness :
  let s := initialState ;> mode_ MISSION ;> isRunning_ true
                        ;> velocity_ (Num (-5)) in
  let s' := fst (simulationLoop (Num 0.1) s) in
  altitude (env s') = Num (Rmax (0 + -5 * 0.1) 0) /\
  exists p, pressure (env s') = Num p /\ 101325 < p.
Proof.
  intros s s'.
  destruct (flying_step_environment s 0 (-5) 0.1 eq_refl eq_refl eq_refl eq_refl)
    as (Ha & _ & _ & _ & Hp).
  split; [exact Ha |]. apply Hp. lra.
Defined.

Lemma mul_NaN_l (b : num) : (NaN * b)%js = NaN.
Proof. destruct b; reflexivity. Qed.

Lemma add_NaN_r (a : num) : (a + NaN)%js = NaN.
Proof. destruct a; reflexivity. Qed.

Lemma add_NaN_l (b : num) : (NaN + b)%js = NaN.
Proof. destruct b; reflexivity. Qed.

Lemma sub_NaN_l (b : num) : (NaN - b)%js = NaN.
Proof. unfold sub. apply add_NaN_l. Qed.

Lemma div_NaN_l (b : num) : (NaN / b)%js = NaN.
Proof. destruct b; reflexivity. Qed.

(** X10: the ceiling. A flying step that reaches a finite altitude at or
    above 293 / 0.0065 m, where the base term of the barometric formula is
    not positive, finds the vacuum: the pressure is 0, the volume and the
    radius are +Infinity, the lift 0 * Infinity is NaN and so is the
    velocity the step leaves, whatever the masses and the gravity; the step
    reports a burst for every burst limit that is a number. *)
Theorem flying_step_above_ceiling (s : SimulationState) (a v d : R) :
  mode s = MISSION -> isRunning s = true ->
  altitude (env s) = Num a ->
  velocity (balloon s) = Num v ->
  293 / 0.0065 <= a + v * d ->
  let s' := fst (simulationLoop (Num d) s) in
  altitude (env s') = Num (a + v * d) /\
  pressure (env s') = Num 0 /\
  temperature (env s') = Num 1 /\
  volume (balloon s') = PosInf /\
  radius (balloon s') = PosInf /\
  velocity (balloon s') = NaN /\
  (maxRadius (balloon s) <> NaN ->
   exploded (snd (simulationLoop (Num d) s)) = true).
Proof.
  intros Hm Hr Ha Hv Hceil s'.
  set (h := a + v * d) in *.
  assert (Hh : 293 <= 0.0065 * h) by lra.
  assert (Hbase : Spec.base_at h <= 0) by (unfold Spec.base_at; lra).
  pose proof (pressure_at_vacuum h Hbase) as Ep.
  assert (ET : Spec.temperature_at h = 1)
    by (unfold Spec.temperature_at; apply Rmax_right; lra).
  pose proof (environmentUpdate_flying_state a v d s Hm Hr Ha Hv) as E1.
  fold h in E1. cbn zeta in E1. rewrite Ep, ET in E1.
  set (s1 := gasLaws (environmentUpdate (Num d) s)).
  assert (Es1 : s1 =
    s ;> altitude_ (Num h) ;> positionY_ (Num h)
      ;> pressure_ (Num 0) ;> temperature_ (Num 1)
      ;> volume_ PosInf ;> radius_ PosInf).
  { unfold s1. rewrite E1.
    rewrite gasLaws_not_GayLussac by (cbn; rewrite Hm; discriminate).
    cbn -[calculateVolume pow div mul]. unfold calculateVolume.
    replace (Num 0 <=? Num 0)%js with true by (symmetry; apply le_Num; lra).
    rewrite sphere_radius_PosInf. reflexivity. }
  assert (EL : liftForce s1 = NaN).
  { unfold liftForce, rhoAir, M_air, R_gas. rewrite Es1. cbn -[div mul].
    cbn [mul]. rewrite div_Num by lra. cbn [mul sgn].
    rewrite Rsgn_zero by (field; lra). cbn [cmul inf_of].
    apply mul_NaN_l. }
  assert (Es' : s' =
    s1 ;> velocity_ NaN).
  { change s' with (forcesAndMovement (Num d) s1). unfold forcesAndMovement.
    rewrite (proj2 (flying_iff s1)) by (rewrite Es1; split; assumption).
    rewrite EL, sub_NaN_l, add_NaN_l, div_NaN_l, mul_NaN_l, add_NaN_r.
    cbn zeta.
    replace (altitude (env (s1 ;> velocity_ NaN))) with (Num h)
      by (rewrite Es1; reflexivity).
    replace (Num h <? Num 0)%js with false
      by (symmetry; apply lt_Num_false; lra).
    reflexivity. }
  assert (Eres : snd (simulationLoop (Num d) s) = limits s') by reflexivity.
  rewrite Eres, Es', Es1. cbn -[ge]. repeat split.
  intros Hmax. unfold limits. cbn -[ge]. rewrite ge_PosInf by assumption.
  reflexivity.
Qed.

Lemma flying_step_above_ceiling_witness :
  velocity (balloon (fst (simulationLoop (Num 0.1) Scenario2.above_ceiling)))
  = NaN /\
  exploded (snd (simulationLoop (Num 0.1) Scenario2.above_ceiling)) = true.
Proof.
  destruct (flying_step_above_ceiling Scenario2.above_ceiling 50000 0 0.1)
    as (_ & _ & _ & _ & _ & Hv & He); try reflexivity; try lra.
  split; [exact Hv |]. apply He. discriminate.
Defined.

(** X11: outside a running mission the step writes the volume and the
    radius and nothing else: the mode, the running flag, the environment,
    the ramp and every other field of the balloon are as before. *)
Theorem not_flying_step_writes_volume_and_radius
  (dt : num) (s : SimulationState) :
  Mode_eqb (mode s) MISSION && isRunning s = false ->
  let s' := fst (simulationLoop dt s) in
  s' = s ;> volume_ (volume (balloon s')) ;> radius_ (radius (balloon s')).
Proof.
  intros H s'. unfold s'. rewrite simulationLoop_not_flying by assumption.
  cbn [fst]. unfold gasLaws.
  destruct (Mode_eqb (mode s) GAY_LUSSAC).
  - destruct s as [m r e b an]. destruct b. reflexivity.
  - destruct s as [m r e b an]. destruct b. reflexivity.
Qed.

Lemma not_flying_step_writes_volume_and_radius_witness :
  let s := initialState ;> mode_ MISSION ;> velocity_ (Num 3) in
  let s' := fst (simulationLoop (Num 0.1) s) in
  s' = s ;> volume_ (volume (balloon s')) ;> radius_ (radius (balloon s')).
Proof.
  intros s.
  apply (not_flying_step_writes_volume_and_radius (Num 0.1) s).
  reflexivity.
Defined.

(** ** The educational ramp *)

Lemma writeParameter_animation (value : num) (s : SimulationState) :
  animation (writeParameter value s) = animation s.
Proof. apply writeParameter_frame. Qed.

(** One ramp update on an active ramp with finite numbers and a positive
    duration: before the end the interpolated value is written, at the end
    the interpolated value and then the target, and the ramp stops. *)
Lemma rampUpdate_active (s : SimulationState) (S G e D d : R) :
  active (animation s) = true ->
  startValue (animation s) = Num S ->
  targetValue (animation s) = Num G ->
  elapsed (animation s) = Num e ->
  duration (animation s) = Num D ->
  0 < D ->
  let x := (e + d) / D in
  let s1 := s ;> elapsed_ (Num (e + d)) in
  (x < 1 ->
   rampUpdate (Num d) s = writeParameter (Num (S + (G - S) * x)) s1) /\
  (1 <= x ->
   rampUpdate (Num d) s =
   s1 ;> writeParameter (Num (S + (G - S) * 1.0))
      ;> writeParameter (Num G) ;> active_ false).
Proof.
  intros Ha HS HG He HD HDpos x s1.
  assert (E : rampUpdate (Num d) s =
    let progress := Num (Rmin x 1.0) in
    let value := Num (S + (G - S) * Rmin x 1.0) in
    let s2 := writeParameter value s1 in
    if (progress >=? Num 1.0)%js
    then s2 ;> writeParameter (Num G) ;> active_ false
    else s2).
  { unfold rampUpdate. rewrite Ha, He. cbn [add]. fold s1.
    change (elapsed (animation s1)) with (Num (e + d)).
    change (duration (animation s1)) with (duration (animation s)).
    change (startValue (animation s1)) with (startValue (animation s)).
    change (targetValue (animation s1)) with (targetValue (animation s)).
    rewrite HD, HS, HG. rewrite div_Num by lra. fold x.
    rewrite min_Num. cbn [sub add neg mul]. cbn zeta.
    rewrite writeParameter_animation.
    change (targetValue (animation s1)) with (targetValue (animation s)).
    rewrite HG. reflexivity. }
  rewrite E. cbn zeta. split; intros Hx.
  - rewrite Rmin_left by lra.
    replace (Num x >=? Num 1.0)%js with false
      by (symmetry; apply ge_Num_false; lra).
    reflexivity.
  - rewrite Rmin_right by lra.
    replace (Num 1.0 >=? Num 1.0)%js with true
      by (symmetry; apply ge_Num; lra).
    reflexivity.
Qed.

Lemma writeParameter_pressure (value : num) (s : SimulationState) :
  parameter (animation s) = ParamPressure ->
  writeParameter value s = s ;> pressure_ value.
Proof. intros H. unfold writeParameter. now rewrite H. Qed.

(** X12: one frame of a pressure ramp. With an active ramp on the pressure,
    finite start S, target G, elapsed time e, duration D > 0 and time step
    d, the ramp update adds d to the elapsed time; while (e + d) / D < 1 it
    writes the pressure S + (G - S) (e + d) / D and stays active; once
    (e + d) / D >= 1 it writes exactly G and stops. Temperature and balloon
    are not written, and for e + d >= 0 the pressure written lies between S
    and G. *)
Theorem pressure_ramp_update (s : SimulationState) (S G e D d : R) :
  active (animation s) = true ->
  parameter (animation s) = ParamPressure ->
  startValue (animation s) = Num S ->
  targetValue (animation s) = Num G ->
  elapsed (animation s) = Num e ->
  duration (animation s) = Num D ->
  0 < D ->
  let x := (e + d) / D in
  let s' := rampUpdate (Num d) s in
  elapsed (animation s') = Num (e + d) /\
  temperature (env s') = temperature (env s) /\
  balloon s' = balloon s /\
  (x < 1 -> pressure (env s') = Num (S + (G - S) * x)
            /\ active (animation s') = true) /\
  (1 <= x -> pressure (env s') = Num G /\ active (animation s') = false) /\
  (0 <= e + d ->
   exists p, pressure (env s') = Num p /\ Rmin S G <= p <= Rmax S G).
Proof.
  intros Ha Hp HS HG He HD HDpos x s'.
  destruct (rampUpdate_active s S G e D d Ha HS HG He HD HDpos) as [Hlt Hge].
  fold x in Hlt, Hge. cbn zeta in Hlt, Hge.
  set (s1 := s ;> elapsed_ (Num (e + d))) in *.
  assert (Hp1 : parameter (animation s1) = ParamPressure) by exact Hp.
  destruct (Rlt_dec x 1) as [Hx | Hx].
  - assert (Es' : s' = s1 ;> pressure_ (Num (S + (G - S) * x))).
    { unfold s'. rewrite Hlt by assumption.
      now apply writeParameter_pressure. }
    rewrite Es'. cbn.
    split; [reflexivity |]. split; [reflexivity |]. split; [reflexivity |].
    split; [| split].
    + intros _. split; [reflexivity | exact Ha].
    + intros Hx1. lra.
    + intros Hpos. exists (S + (G - S) * x). split; [reflexivity |].
      assert (0 <= x) by (unfold x; apply Rmult_le_pos;
                          [assumption | left; now apply Rinv_0_lt_compat]).
      unfold Rmin, Rmax. destruct (Rle_dec S G); split; nra.
  - assert (Es' : s' = s1 ;> pressure_ (Num (S + (G - S) * 1.0))
                          ;> pressure_ (Num G) ;> active_ false).
    { unfold s'. rewrite Hge by lra.
      rewrite (writeParameter_pressure _ s1) by assumption.
      rewrite writeParameter_pressure by exact Hp. reflexivity. }
    rewrite Es'. cbn.
    split; [reflexivity |]. split; [reflexivity |]. split; [reflexivity |].
    split; [| split].
    + intros Hx1. lra.
    + intros _. split; reflexivity.
    + intros Hpos. exists G. split; [reflexivity |].
      unfold Rmin, Rmax. destruct (Rle_dec S G); split; lra.
Qed.

Lemma pressure_ramp_update_witness :
  let s' := rampUpdate (Num 0.1) Scenario2.boyle_ramp in
  pressure (env s') = Num (101325 + (200000 - 101325) * ((0 + 0.1) / 10))
  /\ active (animation s') = true.
Proof.
  intros s'.
  destruct (pressure_ramp_update Scenario2.boyle_ramp 101325 200000 0 10 0.1)
    as (_ & _ & _ & Hlt & _); try reflexivity; try lra.
  apply Hlt. lra.
Defined.






Lemma gay_lussac_frame_env (dt : num) (s : SimulationState) :
  mode s = GAY_LUSSAC ->
  env (fst (frame dt s)) = env (rampUpdate dt s) /\
  balloon (fst (frame dt s)) = balloon s.
Proof.
  intros Hm. destruct (rampUpdate_frame dt s) as (R1 & R2 & R3).
  unfold frame. rewrite gay_lussac_step by congruence.
  destruct (exploded (limits (rampUpdate dt s))); cbn; split; congruence.
Qed.

(** X14: the law of Gay-Lussac along the ramp. In Gay-Lussac mode with an
    active ramp on the temperature, positive start and target temperatures,
    finite moles n and a constantVolume c that is not 0, a frame whose
    elapsed time is not negative leaves a temperature T' between start and
    target, the pressure n R T' / c, and so the quotient of pressure and
    temperature n R / c; the balloon is not written. *)
Theorem gay_lussac_ramp_law (s : SimulationState) (S G e D d n c : R) :
  mode s = GAY_LUSSAC ->
  active (animation s) = true ->
  parameter (animation s) = ParamTemperature ->
  startValue (animation s) = Num S ->
  targetValue (animation s) = Num G ->
  elapsed (animation s) = Num e ->
  duration (animation s) = Num D ->
  moles (balloon s) = Num n ->
  constantVolume (balloon s) = Num c ->
  0 < D -> 0 < S -> 0 < G -> c <> 0 -> 0 <= e + d ->
  let s' := fst (frame (Num d) s) in
  balloon s' = balloon s /\
  exists T',
    temperature (env s') = Num T' /\
    Rmin S G <= T' <= Rmax S G /\
    pressure (env s') = Num (n * 8.314 * T' / c) /\
    (pressure (env s') / temperature (env s'))%js = Num (n * 8.314 / c).
Proof.
  intros Hm Ha Hp HS HG He HD Hn Hc HDpos HSpos HGpos Hc0 Hed s'.
  destruct (gay_lussac_frame_env (Num d) s Hm) as [Eenv Ebal].
  fold s' in Eenv, Ebal. split; [exact Ebal |].
  destruct (rampUpdate_active s S G e D d Ha HS HG He HD HDpos) as [Hlt Hge].
  cbn zeta in Hlt, Hge.
  set (x := (e + d) / D) in *.
  set (s1 := s ;> elapsed_ (Num (e + d))) in *.
  assert (Hm1 : mode s1 = GAY_LUSSAC) by exact Hm.
  assert (Hp1 : parameter (animation s1) = ParamTemperature) by exact Hp.
  assert (Hx0 : 0 <= x).
  { unfold x. apply Rmult_le_pos; [assumption |].
    left. now apply Rinv_0_lt_compat. }
  assert (Hmin : 0 < Rmin S G) by (apply Rmin_glb_lt; assumption).
  assert (Key : forall T', Rmin S G <= T' <= Rmax S G ->
    env s' = env (s1 ;> temperature_ (Num T')
                     ;> pressure_ ((Num n * Num 8.314 * Num T') / Num c)%js) ->
    exists T'0,
      temperature (env s') = Num T'0 /\
      Rmin S G <= T'0 <= Rmax S G /\
      pressure (env s') = Num (n * 8.314 * T'0 / c) /\
      (pressure (env s') / temperature (env s'))%js = Num (n * 8.314 / c)).
  { intros T' HT' E. exists T'. rewrite E. cbn -[div]. cbn [mul].
    rewrite !div_Num by lra.
    repeat split; try reflexivity; try lra.
    f_equal. field. split; lra. }
  destruct (Rlt_dec x 1) as [Hx | Hx].
  - apply (Key (S + (G - S) * x)).
    + unfold Rmin, Rmax. destruct (Rle_dec S G); split; nra.
    + rewrite Eenv, (Hlt Hx).
      rewrite (writeParameter_gay_lussac _ s1 Hm1 Hp1).
      change (moles (balloon s1)) with (moles (balloon s)).
      change (constantVolume (balloon s1)) with (constantVolume (balloon s)).
      rewrite Hn, Hc. reflexivity.
  - apply (Key G).
    + unfold Rmin, Rmax. destruct (Rle_dec S G); split; lra.
    + rewrite Eenv, Hge by lra.
      rewrite (writeParameter_gay_lussac _ s1 Hm1 Hp1).
      rewrite writeParameter_gay_lussac by assumption.
      cbn -[div mul]. rewrite Hn, Hc. reflexivity.
Qed.

Lemma rigid_ramp_state :
  let V := 4 / 3 * PI * (1.0 * 1.0 * 1.0) in
  mode Scenario2.rigid_ramp = GAY_LUSSAC /\
  animation Scenario2.rigid_ramp =
  {| active := true; startValue := Num 293; targetValue := Num 500;
     currentValue := Num 293; duration := Num 10; elapsed := Num 0;
     parameter := ParamTemperature; direction := Num 1 |} /\
  moles (balloon Scenario2.rigid_ramp) = Num (101325 * V / (8.314 * 293)) /\
  constantVolume (balloon Scenario2.rigid_ramp) = Num V.
Proof.
  intros V. unfold Scenario2.rigid_ramp. rewrite rigid_state. fold V.
  repeat split; reflexivity.
Qed.

Lemma gay_lussac_ramp_law_witness :
  let V := 4 / 3 * PI * (1.0 * 1.0 * 1.0) in
  let s' := fst (frame (Num 0.1) Scenario2.rigid_ramp) in
  exists T',
    temperature (env s') = Num T' /\
    Rmin 293 500 <= T' <= Rmax 293 500 /\
    pressure (env s') = Num (101325 * V / (8.314 * 293) * 8.314 * T' / V) /\
    (pressure (env s') / temperature (env s'))%js
    = Num (101325 * V / (8.314 * 293) * 8.314 / V).
Proof.
  intros V s'.
  destruct rigid_ramp_state as (Hm & Han & Hn & Hc).
  pose proof PI_bounds as Hpi.
  apply (gay_lussac_ramp_law Scenario2.rigid_ramp 293 500 0 10 0.1
           (101325 * V / (8.314 * 293)) V);
    try assumption; try (rewrite Han; reflexivity); try lra.
  unfold V. lra.
Defined.

(** ** The controls *)

Lemma max_Num (x y : R) : JSMath.max (Num x) (Num y) = Num (Rmax x y).
Proof.
  unfold JSMath.max; simpl. pose proof (Rcmp_spec x y) as S.
  destruct (Rcmp x y); f_equal.
  - symmetry; apply Rmax_left; lra.
  - symmetry; apply Rmax_right; lra.
  - symmetry; apply Rmax_left; lra.
Qed.

(** [Math.max(min, Math.min(max, value))] on a value that is not NaN. *)
Lemma clamp_range (lo hi : R) (value : num) :
  lo <= hi -> value <> NaN ->
  exists p,
    JSMath.max (Num lo) (min (Num hi) value) = Num p /\
    lo <= p <= hi /\
    (forall x, value = Num x -> p = Rmax lo (Rmin hi x)) /\
    (forall x, value = Num x -> lo <= x <= hi -> p = x).
Proof.
  intros Hle Hnan. destruct value as [x | | |].
  - exists (Rmax lo (Rmin hi x)). rewrite min_Num, max_Num.
    split; [reflexivity |]. split; [| split].
    + split; [apply Rmax_l |]. apply Rmax_lub; [assumption | apply Rmin_l].
    + intros y Hy. injection Hy as <-. reflexivity.
    + intros y Hy Hin. injection Hy as <-.
      rewrite Rmin_right by lra. apply Rmax_right. lra.
  - exists hi. cbn [min cmp]. rewrite max_Num, Rmax_right by assumption.
    repeat split; try lra; intros; discriminate.
  - exists lo. cbn. repeat split; try lra; intros; discriminate.
  - contradiction.
Qed.

(** The clamp on the two infinities. *)
Lemma clamp_infinite (lo hi : R) :
  lo <= hi ->
  JSMath.max (Num lo) (min (Num hi) PosInf) = Num hi /\
  JSMath.max (Num lo) (min (Num hi) NegInf) = Num lo.
Proof.
  intros Hle. split.
  - cbn [min cmp]. rewrite max_Num. f_equal. apply Rmax_right. assumption.
  - reflexivity.
Qed.

(** X15: the typed pressure and temperature are clamped to the range of
    their slider. In the modes that admit it (free and Boyle for the
    pressure; free, Charles and Gay-Lussac for the temperature), a typed
    value that is not NaN is written as max (lo, min (hi, value)): the
    value itself when it is in [lo, hi], hi when it is above (+Infinity
    included), lo when it is below (-Infinity included); a NaN, or any
    other mode, leaves the state as it is. *)
Theorem typed_values_are_clamped
  (lo hi : R) (value : num) (s : SimulationState) :
  lo <= hi ->
  let sp := inputPressureInput (Num lo) (Num hi) value s in
  let st := inputTempInput (Num lo) (Num hi) value s in
  (value <> NaN ->
   (mode s = IDLE \/ mode s = BOYLE ->
    sp = s ;> pressure_ (JSMath.max (Num lo) (min (Num hi) value))) /\
   (mode s = IDLE \/ mode s = CHARLES \/ mode s = GAY_LUSSAC ->
    st = s ;> temperature_ (JSMath.max (Num lo) (min (Num hi) value))) /\
   exists p,
     JSMath.max (Num lo) (min (Num hi) value) = Num p /\
     lo <= p <= hi /\
     (forall x, value = Num x -> p = Rmax lo (Rmin hi x)) /\
     (forall x, value = Num x -> lo <= x <= hi -> p = x) /\
     (forall x, value = Num x -> hi <= x -> p = hi) /\
     (forall x, value = Num x -> x <= lo -> p = lo) /\
     (value = PosInf -> p = hi) /\
     (value = NegInf -> p = lo)) /\
  (value <> NaN ->
   (mode s = IDLE \/ mode s = BOYLE ->
    exists p, sp = s ;> pressure_ (Num p) /\ lo <= p <= hi /\
              (forall x, value = Num x -> lo <= x <= hi -> p = x)) /\
   (mode s = IDLE \/ mode s = CHARLES \/ mode s = GAY_LUSSAC ->
    exists t, st = s ;> temperature_ (Num t) /\ lo <= t <= hi /\
              (forall x, value = Num x -> lo <= x <= hi -> t = x))) /\
  (value = NaN -> sp = s /\ st = s) /\
  (mode s = CHARLES \/ mode s = GAY_LUSSAC \/ mode s = MISSION -> sp = s) /\
  (mode s = BOYLE \/ mode s = MISSION -> st = s).
Proof.
  intros Hle sp st.
  assert (Hsp : value <> NaN -> mode s = IDLE \/ mode s = BOYLE ->
                sp = s ;> pressure_ (JSMath.max (Num lo) (min (Num hi) value))).
  { intros Hnan Hm.
    assert (Hnot : JSMath.isNaN value = false)
      by (destruct value; try reflexivity; contradiction).
    unfold sp, inputPressureInput. rewrite Hnot.
    destruct Hm as [-> | ->]; reflexivity. }
  assert (Hst : value <> NaN ->
                mode s = IDLE \/ mode s = CHARLES \/ mode s = GAY_LUSSAC ->
                st = s ;> temperature_ (JSMath.max (Num lo) (min (Num hi) value))).
  { intros Hnan Hm.
    assert (Hnot : JSMath.isNaN value = false)
      by (destruct value; try reflexivity; contradiction).
    unfold st, inputTempInput. rewrite Hnot.
    destruct Hm as [-> | [-> | ->]]; reflexivity. }
  split; [| split; [| split; [| split]]].
  - intros Hnan. split; [now apply Hsp |]. split; [now apply Hst |].
    destruct (clamp_range lo hi value Hle Hnan) as (p & Ep & Hp & Hform & Hin).
    destruct (clamp_infinite lo hi Hle) as [Epos Eneg].
    exists p. split; [exact Ep |]. split; [exact Hp |].
    split; [exact Hform |]. split; [exact Hin |].
    split; [| split; [| split]].
    + intros x Hx Hhi. rewrite (Hform x Hx).
      rewrite Rmin_left by assumption. apply Rmax_right. assumption.
    + intros x Hx Hlo. rewrite (Hform x Hx).
      apply Rmax_left. apply Rle_trans with x; [apply Rmin_r | assumption].
    + intros ->. rewrite Epos in Ep. now injection Ep.
    + intros ->. rewrite Eneg in Ep. now injection Ep.
  - intros Hnan.
    destruct (clamp_range lo hi value Hle Hnan) as (p & Ep & Hp & _ & Hin).
    split.
    + intros Hm. exists p. split; [| split; assumption].
      rewrite (Hsp Hnan Hm), Ep. reflexivity.
    + intros Hm. exists p. split; [| split; assumption].
      rewrite (Hst Hnan Hm), Ep. reflexivity.
  - intros ->. unfold sp, st, inputPressureInput, inputTempInput. cbn.
    split; match goal with |- context [if ?c then _ else _] => destruct c end;
      reflexivity.
  - intros Hm. unfold sp, inputPressureInput.
    destruct Hm as [-> | [-> | ->]]; reflexivity.
  - intros Hm. unfold st, inputTempInput.
    destruct Hm as [-> | ->]; reflexivity.
Qed.

Lemma typed_values_are_clamped_witness :
  exists p,
    inputPressureInput (Num 10000) (Num 200000) (Num 500000) initialState
    = initialState ;> pressure_ (Num p) /\ p = 200000.
Proof.
  destruct (typed_values_are_clamped 10000 200000 (Num 500000) initialState)
    as (H & _); [lra |].
  destruct H as (Hsp & _ & p & Ep & _ & _ & _ & Habove & _); [discriminate |].
  exists p. split.
  - rewrite <- Ep. apply Hsp. left. reflexivity.
  - apply (Habove 500000); [reflexivity | lra].
Defined.



(** X17: the danger meter is full exactly when the step reports a burst.
    For a finite radius and a positive finite burst limit, the fraction
    shown by [updateUI] is min (radius / maxRadius, 1): at most 1, not
    negative for a radius that is not negative, and equal to 1 exactly when
    radius >= maxRadius, the test of the burst check. *)
Theorem tension_full_iff_burst (s : SimulationState) (r m : R) :
  radius (balloon s) = Num r ->
  maxRadius (balloon s) = Num m ->
  0 < m ->
  exists t,
    tension s = Num t /\
    t = Rmin (r / m) 1 /\
    t <= 1 /\
    (0 <= r -> 0 <= t) /\
    (t = 1 <-> exploded (limits s) = true).
Proof.
  intros Hr Hm Hpos. exists (Rmin (r / m) 1).
  assert (Hdiv : forall y, y <= r / m <-> y * m <= r).
  { intros y. split; intros H.
    - apply Rmult_le_compat_r with (r := m) in H; [| lra].
      replace (r / m * m) with r in H by (field; lra). exact H.
    - apply Rmult_le_reg_r with m; [assumption |].
      replace (r / m * m) with r by (field; lra). exact H. }
  split.
  { unfold tension. rewrite Hr, Hm, div_Num by lra. rewrite min_Num.
    f_equal. f_equal. lra. }
  split; [reflexivity |]. split; [apply Rmin_r |]. split.
  - intros Hr0. apply Rmin_glb; [| lra]. apply Hdiv. lra.
  - unfold limits. rewrite Hr, Hm.
    destruct (Rle_dec m r) as [Hge | Hlt].
    + replace (Num r >=? Num m)%js with true
        by (symmetry; apply ge_Num; assumption).
      split; [reflexivity | intros _].
      apply Rmin_right. apply Hdiv. lra.
    + replace (Num r >=? Num m)%js with false
        by (symmetry; apply ge_Num_false; lra).
      split; [| discriminate]. intros H.
      assert (1 <= r / m) by (rewrite <- H; apply Rmin_l).
      apply Hdiv in H0. lra.
Qed.

Lemma tension_full_iff_burst_witness :
  exists t,
    tension initialState = Num t /\
    t = Rmin (1.0 / 5.0) 1 /\
    t <= 1 /\
    (0 <= 1.0 -> 0 <= t) /\
    (t = 1 <-> exploded (limits initialState) = true).
Proof.
  apply (tension_full_iff_burst initialState 1.0 5.0); try reflexivity. lra.
Defined.

(** ** The application as a whole *)

Lemma writeParameter_constants (value : num) (s : SimulationState) :
  constants (writeParameter value s) = constants s.
Proof.
  unfold writeParameter, gayLussacPressure, constants. split_tests; reflexivity.
Qed.

Lemma rampUpdate_constants (dt : num) (s : SimulationState) :
  constants (rampUpdate dt s) = constants s.
Proof.
  unfold rampUpdate. destruct (active (animation s)); [| reflexivity].
  cbn zeta.
  match goal with |- context [if ?c then _ else _] => destruct c end.
  - change (constants (active_ false ?t)) with (constants t).
    now rewrite !writeParameter_constants.
  - now rewrite writeParameter_constants.
Qed.

Lemma simulationLoop_constants (dt : num) (s : SimulationState) :
  constants (fst (simulationLoop dt s)) = constants s.
Proof.
  unfold simulationLoop. cbn [fst].
  assert (E1 : constants (environmentUpdate dt s) = constants s)
    by (unfold environmentUpdate; split_tests; reflexivity).
  assert (E2 : forall t, constants (gasLaws t) = constants t)
    by (intros t; unfold gasLaws; split_tests; reflexivity).
  assert (E3 : forall t, constants (forcesAndMovement dt t) = constants t)
    by (intros t; unfold forcesAndMovement; split_tests; reflexivity).
  now rewrite E3, E2, E1.
Qed.

Lemma frame_constants (dt : num) (s : SimulationState) :
  constants (fst (frame dt s)) = constants s.
Proof.
  unfold frame.
  pose proof (simulationLoop_constants dt (rampUpdate dt s)) as H.
  destruct (simulationLoop dt (rampUpdate dt s)) as [s' r]. cbn [fst] in H.
  rewrite rampUpdate_constants in H.
  destruct (exploded r); cbn [fst]; exact H.
Qed.

Lemma dispatch_constants (e : Event) (s : SimulationState) :
  constants (dispatch e s) = constants s.
Proof.
  destruct e; cbn [dispatch]; try apply frame_constants;
    unfold sliderPressureInput, sliderTempInput, sliderMaxRadiusInput,
      sliderPayloadMassInput, recalculateMoles, inputPressureInput,
      inputPressureBlur, inputTempInput, inputTempBlur, inputMaxRadiusInput,
      inputMaxRadiusBlur, inputPayloadMassInput, inputPayloadMassBlur,
      gasSelectChange, modeClick, updateControlVisibility, startEdu, stopEdu,
      launch, resetClick, explosionReset, initSimulation, recalculateMoles,
      resetMissionState;
    split_tests; reflexivity.
Qed.

(** X18: gravity, massBalloon and the duration of the ramp are constants of
    the application: no frame, control, button or reset writes them, so
    after any sequence of events they have the values they started with
    (9.81, 0.2 and 10 from the initial state). *)
Theorem events_never_write_constants (events : list Event) (s : SimulationState) :
  gravity (env (dispatchAll events s)) = gravity (env s) /\
  massBalloon (balloon (dispatchAll events s)) = massBalloon (balloon s) /\
  duration (animation (dispatchAll events s)) = duration (animation s).
Proof.
  assert (H : constants (dispatchAll events s) = constants s).
  { revert s. induction events as [| e rest IH]; intros s; [reflexivity |].
    change (dispatchAll (e :: rest) s) with (dispatchAll rest (dispatch e s)).
    rewrite IH. apply dispatch_constants. }
  unfold constants in H. injection H as H1 H2 H3. repeat split; assumption.
Qed.

Lemma simulationLoop_positionY (dt : num) (s : SimulationState) :
  positionY (balloon s) = altitude (env s) ->
  positionY (balloon (fst (simulationLoop dt s)))
  = altitude (env (fst (simulationLoop dt s))).
Proof.
  intros H. unfold simulationLoop. cbn [fst].
  assert (E1 : positionY (balloon (environmentUpdate dt s))
               = altitude (env (environmentUpdate dt s)))
    by (unfold environmentUpdate; split_tests; [reflexivity | exact H]).
  assert (E2 : forall t, positionY (balloon t) = altitude (env t) ->
               positionY (balloon (gasLaws t)) = altitude (env (gasLaws t)))
    by (intros t Ht; unfold gasLaws; split_tests; exact Ht).
  assert (E3 : forall t, positionY (balloon t) = altitude (env t) ->
               positionY (balloon (forcesAndMovement dt t))
               = altitude (env (forcesAndMovement dt t)))
    by (intros t Ht; unfold forcesAndMovement; split_tests;
        first [reflexivity | exact Ht]).
  apply E3, E2, E1.
Qed.

Lemma frame_positionY (dt : num) (s : SimulationState) :
  positionY (balloon s) = altitude (env s) ->
  positionY (balloon (fst (frame dt s))) = altitude (env (fst (frame dt s))).
Proof.
  intros H. unfold frame.
  assert (Hr : positionY (balloon (rampUpdate dt s))
               = altitude (env (rampUpdate dt s))).
  { destruct (rampUpdate_frame dt s) as (_ & _ & Eb). rewrite Eb, H.
    unfold rampUpdate, writeParameter, gayLussacPressure.
    split_tests; reflexivity. }
  pose proof (simulationLoop_positionY dt (rampUpdate dt s) Hr) as Hs.
  destruct (simulationLoop dt (rampUpdate dt s)) as [s' r]. cbn [fst] in Hs.
  destruct (exploded r); cbn [fst]; exact Hs.
Qed.

Lemma dispatch_positionY (e : Event) (s : SimulationState) :
  positionY (balloon s) = altitude (env s) ->
  positionY (balloon (dispatch e s)) = altitude (env (dispatch e s)).
Proof.
  intros H.
  destruct e; cbn [dispatch]; try (now apply frame_positionY);
    unfold sliderPressureInput, sliderTempInput, sliderMaxRadiusInput,
      sliderPayloadMassInput, recalculateMoles, inputPressureInput,
      inputPressureBlur, inputTempInput, inputTempBlur, inputMaxRadiusInput,
      inputMaxRadiusBlur, inputPayloadMassInput, inputPayloadMassBlur,
      gasSelectChange, modeClick, updateControlVisibility, startEdu, stopEdu,
      launch, resetClick, explosionReset, initSimulation, recalculateMoles,
      resetMissionState;
    split_tests; first [exact H | reflexivity].
Qed.

(** X19: positionY mirrors the altitude. If the two fields hold the same
    value, they still do after any sequence of frames, controls, buttons
    and resets: the flying step writes them together, the floor and every
    reset set both to 0, and nothing else writes either. *)
Theorem positionY_mirrors_altitude (events : list Event) (s : SimulationState) :
  positionY (balloon s) = altitude (env s) ->
  positionY (balloon (dispatchAll events s))
  = altitude (env (dispatchAll events s)).
Proof.
  revert s. induction events as [| e rest IH]; intros s H; [exact H |].
  change (dispatchAll (e :: rest) s) with (dispatchAll rest (dispatch e s)).
  apply IH. now apply dispatch_positionY.
Qed.

Lemma positionY_mirrors_altitude_witness :
  let events := [ModeClick MISSION Scenario.standard_ui; LaunchClick;
                 Frame (Num 0.1); Frame (Num 0.1);
                 ResetClick Scenario.standard_ui] in
  positionY (balloon (dispatchAll events initialState))
  = altitude (env (dispatchAll events initialState)).
Proof.
  intros events.
  apply (positionY_mirrors_altitude events initialState). reflexivity.
Defined.

(** ** After a burst, and the reset *)

Lemma gasLaws_resolved (s : SimulationState) : resolved (gasLaws s).
Proof.
  unfold resolved, gasLaws. destruct (Mode_eqb (mode s) GAY_LUSSAC) eqn:E.
  - intros H. congruence.
  - intros _. split; reflexivity.
Qed.

Lemma resolved_fixed (s : SimulationState) : resolved s -> gasLaws s = s.
Proof.
  unfold resolved, gasLaws. intros H.
  destruct (Mode_eqb (mode s) GAY_LUSSAC); [reflexivity |].
  destruct (H eq_refl) as [Hv Hr]. cbn zeta.
  change (volume (balloon (s ;> volume_ ?v))) with v.
  rewrite <- Hv, <- Hr.
  destruct s as [m r e b an]. destruct b. reflexivity.
Qed.

Lemma forcesAndMovement_resolved (dt : num) (s : SimulationState) :
  resolved s -> resolved (forcesAndMovement dt s).
Proof.
  unfold resolved, forcesAndMovement. intros H.
  split_tests; exact H.
Qed.

Lemma simulationLoop_resolved (dt : num) (s : SimulationState) :
  resolved (fst (simulationLoop dt s)).
Proof.
  unfold simulationLoop. cbn [fst].
  apply forcesAndMovement_resolved, gasLaws_resolved.
Qed.

(** X20: a burst is reported on every frame until something resets the
    state. When a frame reports a burst, [animate] clears the running flag
    and stops the ramp; every further frame then leaves the state exactly
    as it is and reports the burst again, whatever its time step, so that
    [animate] schedules a reset on each of them. *)
Theorem burst_repeats_on_every_frame (dt dt' : num) (s : SimulationState) :
  exploded (snd (frame dt s)) = true ->
  let s' := fst (frame dt s) in
  isRunning s' = false /\
  active (animation s') = false /\
  frame dt' s' = (s', {| exploded := true |}).
Proof.
  intros Hex s'.
  pose proof (simulationLoop_resolved dt (rampUpdate dt s)) as Hres.
  assert (Hlim : snd (simulationLoop dt (rampUpdate dt s))
                 = limits (fst (simulationLoop dt (rampUpdate dt s))))
    by reflexivity.
  unfold s', frame in Hex |- *.
  destruct (simulationLoop dt (rampUpdate dt s)) as [s3 r].
  cbn [fst snd] in Hres, Hlim.
  destruct (exploded r) eqn:Er; cbn [fst snd] in Hex |- *;
    [| rewrite Er in Hex; discriminate].
  split; [reflexivity |]. split; [reflexivity |].
  assert (Hres' : resolved (onExploded s3)) by exact Hres.
  assert (Hramp : rampUpdate dt' (onExploded s3) = onExploded s3)
    by reflexivity.
  rewrite Hramp.
  rewrite simulationLoop_not_flying
    by (cbn; apply andb_false_r).
  rewrite (resolved_fixed _ Hres').
  assert (Hl : limits (onExploded s3) = {| exploded := true |}).
  { subst r. unfold limits in Er |- *.
    change (radius (balloon (onExploded s3))) with (radius (balloon s3)).
    change (maxRadius (balloon (onExploded s3))) with (maxRadius (balloon s3)).
    destruct (radius (balloon s3) >=? maxRadius (balloon s3))%js;
      [reflexivity | discriminate]. }
  rewrite Hl. reflexivity.
Qed.

Lemma burst_repeats_on_every_frame_witness :
  let s' := fst (frame (Num 0.1) Scenario.overfilled) in
  isRunning s' = false /\
  active (animation s') = false /\
  frame (Num 0.1) s' = (s', {| exploded := true |}).
Proof.
  apply (burst_repeats_on_every_frame (Num 0.1) (Num 0.1) Scenario.overfilled).
  unfold frame.
  change (rampUpdate (Num 0.1) Scenario.overfilled) with Scenario.overfilled.
  destruct (overfilled_step (Num 0.1)) as (r & _ & E). rewrite E. reflexivity.
Defined.

(** X21: the reset of the mission refills the balloon at the sliders but
    puts the environment at sea level. After the reset button, with slider
    pressure P, temperature T and radius r (all positive), the state is on
    the ground at rest, not running, at 101325 Pa and 293 K; the next step
    gives the volume V P 293 / (101325 T) and the radius
    r cbrt (P 293 / (101325 T)): the radius r of the slider when
    P 293 = 101325 T, a larger one when P 293 > 101325 T and a smaller one
    when P 293 < 101325 T. *)
Theorem mission_reset_refill
  (P T r : R) (ui : UI) (s : SimulationState) (dt : num) :
  0 < P -> 0 < T -> 0 < r ->
  sliderPressure ui = Num P ->
  sliderTemp ui = Num T ->
  sliderInitialRadius ui = Num r ->
  mode s = MISSION ->
  let V := 4 / 3 * PI * (r * r * r) in
  let s0 := resetClick ui s in
  let s1 := fst (simulationLoop dt s0) in
  isRunning s0 = false /\
  altitude (env s0) = Num 0 /\ velocity (balloon s0) = Num 0 /\
  pressure (env s0) = Num 101325 /\ temperature (env s0) = Num 293 /\
  radius (balloon s0) = Num r /\
  volume (balloon s1) = Num (V * (P * 293 / (101325 * T))) /\
  radius (balloon s1) = Num (r * Rpower (P * 293 / (101325 * T)) (1 / 3)) /\
  (P * 293 = 101325 * T -> radius (balloon s1) = Num r) /\
  (101325 * T < P * 293 ->
   exists r', radius (balloon s1) = Num r' /\ r < r') /\
  (P * 293 < 101325 * T ->
   exists r', radius (balloon s1) = Num r' /\ r' < r).
Proof.
  intros HP HT Hr HuP HuT Hur Hm V s0 s1.
  assert (Hmode : mode (resetMissionState s) <> GAY_LUSSAC)
    by (cbn; rewrite Hm; discriminate).
  assert (Hfly : Mode_eqb (mode (resetMissionState s)) MISSION
                 && isRunning (resetMissionState s) = false)
    by (cbn; rewrite Hm; reflexivity).
  pose proof (fill_step_law P T r 101325 293 ui (resetMissionState s) dt
                HP HT Hr ltac:(lra) ltac:(lra) HuP HuT Hur Hmode Hfly
                eq_refl eq_refl) as Hlaw.
  cbn zeta in Hlaw. destruct Hlaw as (Hvol & Hrad & _).
  assert (Es0 : s0 = recalculateMoles ui (resetMissionState s)) by reflexivity.
  assert (Hr0 : radius (balloon s0) = Num r)
    by (rewrite Es0; unfold recalculateMoles; cbn; exact Hur).
  fold s0 in Hvol, Hrad. fold s1 in Hvol, Hrad. fold V in Hvol.
  set (k := P * 293 / (101325 * T)) in *.
  assert (Hk : 0 < k) by (unfold k; apply Rdiv_lt_0_compat; lra).
  assert (Hden : 0 < 101325 * T) by lra.
  split; [reflexivity |]. split; [reflexivity |]. split; [reflexivity |].
  split; [reflexivity |]. split; [reflexivity |]. split; [exact Hr0 |].
  split; [exact Hvol |]. split; [exact Hrad |].
  split; [| split].
  - intros Heq. etransitivity; [exact Hrad |]. f_equal.
    replace k with 1 by (unfold k; field_simplify_eq; lra).
    rewrite Rpower_one_base. ring.
  - intros Hgt. exists (r * Rpower k (1 / 3)). split; [exact Hrad |].
    assert (H1 : 1 < k).
    { unfold k. apply Rmult_lt_reg_r with (101325 * T); [assumption |].
      replace (P * 293 / (101325 * T) * (101325 * T)) with (P * 293)
        by (field; lra). lra. }
    assert (1 < Rpower k (1 / 3)).
    { rewrite <- (Rpower_one_base (1 / 3)) at 1. apply Rlt_Rpower_l; lra. }
    nra.
  - intros Hlt. exists (r * Rpower k (1 / 3)). split; [exact Hrad |].
    assert (H1 : k < 1).
    { unfold k. apply Rmult_lt_reg_r with (101325 * T); [assumption |].
      replace (P * 293 / (101325 * T) * (101325 * T)) with (P * 293)
        by (field; lra). lra. }
    assert (Rpower k (1 / 3) < 1).
    { rewrite <- (Rpower_one_base (1 / 3)) at 2. apply Rlt_Rpower_l; lra. }
    nra.
Qed.

Lemma mission_reset_refill_witness :
  let ui := {| sliderPressure := Num 50000; sliderTemp := Num 250;
               sliderInitialRadius := Num 1 |} in
  let s0 := resetClick ui Scenario.climbing in
  volume (balloon (fst (simulationLoop (Num 0.1) s0)))
  = Num (4 / 3 * PI * (1 * 1 * 1) * (50000 * 293 / (101325 * 250))).
Proof.
  intros ui s0.
  apply (mission_reset_refill 50000 250 1 ui Scenario.climbing (Num 0.1));
    try reflexivity; lra.
Defined.

(** The reset scheduled by a burst, outside mission mode, on finite
    positive slider values. *)
Lemma explosionReset_educational
  (P T r : R) (ui : UI) (s : SimulationState) :
  T <> 0 -> 0 < r ->
  sliderPressure ui = Num P ->
  sliderTemp ui = Num T ->
  sliderInitialRadius ui = Num r ->
  mode s <> MISSION ->
  explosionReset ui s =
  s ;> altitude_ (Num 0) ;> velocity_ (Num 0) ;> positionY_ (Num 0)
    ;> radius_ (Num 1.0)
    ;> moles_ (Num (P * (4 / 3 * PI * (r * r * r)) / (8.314 * T)))
    ;> volume_ (Num (4 / 3 * PI * (r * r * r)))
    ;> radius_ (Num r).
Proof.
  intros HT Hr HuP HuT Hur Hm. unfold explosionReset, initSimulation.
  replace (Mode_eqb (mode s) MISSION) with false
    by (destruct (mode s); try reflexivity; contradiction).
  now apply recalculateMoles_Num.
Qed.

(** A frame on a state whose ramp is stopped and that is not flying. *)
Lemma frame_idle (dt : num) (s : SimulationState) :
  active (animation s) = false ->
  Mode_eqb (mode s) MISSION && isRunning s = false ->
  exploded (limits (gasLaws s)) = false ->
  frame dt s = (gasLaws s, {| exploded := false |}).
Proof.
  intros Ha Hfly Hlim. unfold frame.
  assert (E : rampUpdate dt s = s) by (unfold rampUpdate; now rewrite Ha).
  rewrite E, simulationLoop_not_flying by assumption.
  rewrite Hlim. destruct (limits (gasLaws s)) as [b]. cbn in Hlim. now subst b.
Qed.

(** X22: recovery after a burst in the educational modes. When the reset
    scheduled by a burst fires outside mission mode, with positive slider
    values, the environment at the pressure and temperature of the sliders,
    the ramp stopped and the slider radius below the burst limit, the
    balloon is back on the ground at rest with the radius of the slider,
    and the next frame keeps that radius and reports no burst. *)
Theorem burst_reset_recovers
  (P T r m : R) (ui : UI) (s : SimulationState) (dt : num) :
  0 < P -> 0 < T -> 0 < r -> r < m ->
  sliderPressure ui = Num P ->
  sliderTemp ui = Num T ->
  sliderInitialRadius ui = Num r ->
  mode s <> MISSION ->
  pressure (env s) = Num P ->
  temperature (env s) = Num T ->
  maxRadius (balloon s) = Num m ->
  active (animation s) = false ->
  altitude (env (explosionReset ui s)) = Num 0 /\
  velocity (balloon (explosionReset ui s)) = Num 0 /\
  positionY (balloon (explosionReset ui s)) = Num 0 /\
  radius (balloon (explosionReset ui s)) = Num r /\
  radius (balloon (fst (frame dt (explosionReset ui s)))) = Num r /\
  exploded (snd (frame dt (explosionReset ui s))) = false.
Proof.
  intros HP HT Hr Hrm HuP HuT Hur Hm HsP HsT Hmax Hact.
  pose proof PI_pos as Hpi.
  rewrite (explosionReset_educational P T r ui s) by (try assumption; lra).
  set (V := 4 / 3 * PI * (r * r * r)).
  assert (HV : 0 < V) by (apply sphere_pos; assumption).
  set (s0 := s ;> altitude_ (Num 0) ;> velocity_ (Num 0) ;> positionY_ (Num 0)
               ;> radius_ (Num 1.0)
               ;> moles_ (Num (P * V / (8.314 * T)))
               ;> volume_ (Num V) ;> radius_ (Num r)).
  assert (Hfly : Mode_eqb (mode s0) MISSION && isRunning s0 = false).
  { change (mode s0) with (mode s).
    destruct (mode s); try reflexivity. contradiction. }
  assert (Hgas : radius (balloon (gasLaws s0)) = Num r
                 /\ maxRadius (balloon (gasLaws s0)) = Num m).
  { split; [| destruct (gasLaws_frame s0) as (_ & _ & _ & _ & _ & G & _);
               rewrite G; exact Hmax].
    unfold gasLaws. change (mode s0) with (mode s).
    destruct (Mode_eqb (mode s) GAY_LUSSAC); [reflexivity |].
    cbn zeta.
    change (moles (balloon s0)) with (Num (P * V / (8.314 * T))).
    change (temperature (env s0)) with (temperature (env s)).
    change (pressure (env s0)) with (pressure (env s)).
    rewrite HsP, HsT, calculateVolume_Num by assumption.
    replace (P * V / (8.314 * T) * 8.314 * T / P) with V by (field; lra).
    cbn [radius balloon radius_ volume volume_ set_balloon].
    rewrite sphere_radius_Num by assumption. f_equal.
    replace (3 * V / (4 * PI)) with (r * r * r) by (unfold V; field; lra).
    now apply cbrt_cube. }
  destruct Hgas as [Hrad Hmax'].
  assert (Hlim : exploded (limits (gasLaws s0)) = false).
  { unfold limits. rewrite Hrad, Hmax'.
    replace (Num r >=? Num m)%js with false
      by (symmetry; apply ge_Num_false; assumption).
    reflexivity. }
  rewrite (frame_idle dt s0 Hact Hfly Hlim). cbn [fst snd].
  split; [reflexivity |]. split; [reflexivity |]. split; [reflexivity |].
  split; [reflexivity |]. split; [exact Hrad | reflexivity].
Qed.

Lemma burst_reset_recovers_witness :
  radius (balloon (fst (frame (Num 0.1)
    (explosionReset Scenario.standard_ui Scenario.overfilled)))) = Num 1.0 /\
  exploded (snd (frame (Num 0.1)
    (explosionReset Scenario.standard_ui Scenario.overfilled))) = false.
Proof.
  destruct (burst_reset_recovers 101325 293 1.0 5.0 Scenario.standard_ui
              Scenario.overfilled (Num 0.1))
    as (_ & _ & _ & _ & H1 & H2); try reflexivity; try lra; try discriminate.
  split; assumption.
Defined.

(** X23: entering Gay-Lussac mode after a step takes a consistent
    snapshot. When the Gay-Lussac button is clicked on a state a step has
    just resolved in another mode, outside a running mission, with finite
    moles n, temperature T and pressure P (P > 0, n and T not 0), the
    snapshot constantVolume is n R T / P, so that the quotient of pressure
    and temperature on entry, P / T, is already the n R / constantVolume
    that the ramp maintains. *)
Theorem gay_lussac_entry_is_consistent
  (dt : num) (ui : UI) (s : SimulationState) (n T P : R) :
  mode s <> GAY_LUSSAC ->
  Mode_eqb (mode s) MISSION && isRunning s = false ->
  moles (balloon s) = Num n ->
  temperature (env s) = Num T ->
  pressure (env s) = Num P ->
  0 < P -> n <> 0 -> T <> 0 ->
  let s1 := modeClick GAY_LUSSAC ui (fst (simulationLoop dt s)) in
  mode s1 = GAY_LUSSAC /\
  active (animation s1) = false /\
  constantVolume (balloon s1) = Num (n * 8.314 * T / P) /\
  volume (balloon s1) = constantVolume (balloon s1) /\
  (pressure (env s1) / temperature (env s1))%js = Num (P / T) /\
  ((moles (balloon s1) * Num 8.314) / constantVolume (balloon s1))%js
  = Num (P / T).
Proof.
  intros Hm Hfly Hn HT HP HPpos Hn0 HT0 s1.
  destruct (ideal_step dt s n T P Hm Hfly Hn HT HP HPpos) as (Eenv & En & Ev).
  cbn zeta in Eenv, En, Ev.
  set (s' := fst (simulationLoop dt s)) in *.
  assert (Es1 : s1 =
    s' ;> mode_ GAY_LUSSAC ;> isRunning_ false ;> active_ false
       ;> altitude_ (Num 0) ;> velocity_ (Num 0) ;> positionY_ (Num 0)
       ;> constantVolume_ (volume (balloon s'))) by reflexivity.
  assert (Ep : pressure (env s') = Num P) by (rewrite Eenv; exact HP).
  assert (Et : temperature (env s') = Num T) by (rewrite Eenv; exact HT).
  rewrite Es1.
  change (mode (s' ;> mode_ GAY_LUSSAC ;> isRunning_ false ;> active_ false
       ;> altitude_ (Num 0) ;> velocity_ (Num 0) ;> positionY_ (Num 0)
       ;> constantVolume_ (volume (balloon s')))) with GAY_LUSSAC.
  cbn [env balloon animation active constantVolume volume moles pressure
       temperature constantVolume_ positionY_ velocity_ altitude_ active_
       isRunning_ mode_ set_env set_balloon set_animation].
  rewrite Ep, Et, En, Ev. cbn [mul].
  assert (Hc : n * 8.314 * T / P <> 0).
  { unfold Rdiv. apply Rmult_integral_contrapositive_currified.
    - apply Rmult_integral_contrapositive_currified; [| assumption].
      apply Rmult_integral_contrapositive_currified; [assumption | lra].
    - apply Rinv_neq_0_compat. lra. }
  rewrite !div_Num by assumption.
  repeat split; try reflexivity.
  f_equal. field. repeat split; lra.
Qed.

Lemma gay_lussac_entry_is_consistent_witness :
  let s := initialState ;> moles_ (Num 100) in
  let s1 := modeClick GAY_LUSSAC Scenario.standard_ui
                      (fst (simulationLoop (Num 0.1) s)) in
  constantVolume (balloon s1) = Num (100 * 8.314 * 293 / 101325) /\
  (pressure (env s1) / temperature (env s1))%js = Num (101325 / 293).
Proof.
  intros s s1.
  destruct (gay_lussac_entry_is_consistent (Num 0.1) Scenario.standard_ui s
              100 293 101325)
    as (_ & _ & H1 & _ & H2 & _); try reflexivity; try lra; try discriminate.
  split; assumption.
Defined.
